(** * A REST API client core: request building, rate tracking, error classes

    A shallow embedding of the client of this repository: [NewRequest]
    (client.go), the tags service (tags.go) and the response pipeline that
    the README develops ([newResponse], [parseRate], [CheckResponse],
    [checkRateLimitBeforeDo], [Do]).

    The Go standard library is not part of the repository.  What the client
    uses of it is modelled in the first modules ([strconv], [time],
    [textproto], [ioutil], [http]); URL resolution, JSON encoding and
    decoding and the formatting of instants are taken as the operations of a
    class [GoLib], and every result holds for each of its instances. *)

From Stdlib Require Import ZArith Lia Bool List Ascii.
From stdpp Require Import base strings gmap pretty.
Import ListNotations.

Local Open Scope string_scope.
Local Open Scope Z_scope.

(** ** strconv: decimal parsing *)

Module strconv.

Inductive NumError := ErrSyntax | ErrRange.

Definition intSize : Z := 64.
Definition maxUint64 : Z := 2 ^ 64 - 1.

(** The value of a decimal digit, [c - '0'], when [c] is one. *)
Definition digit (c : ascii) : option Z :=
  let n := Z.of_N (Ascii.N_of_ascii c) in
  if (48 <=? n) && (n <=? 57) then Some (n - 48) else None.

(** The loop of [ParseUint(s, 10, 64)]: the first character that is no
    digit is a syntax error, the first step that leaves 64 bits a range
    error with the largest value. *)
Fixpoint ParseUint_loop (s : string) (n : Z) : Z * option NumError :=
  match s with
  | EmptyString => (n, None)
  | String c s' =>
      match digit c with
      | None => (0, Some ErrSyntax)
      | Some d =>
          if maxUint64 / 10 + 1 <=? n then (maxUint64, Some ErrRange)
          else
            let n10 := n * 10 in
            let n1 := (n10 + d) mod 2 ^ 64 in
            if (n1 <? n10) || (maxUint64 <? n1) then (maxUint64, Some ErrRange)
            else ParseUint_loop s' n1
      end
  end.

Definition ParseUint (s : string) : Z * option NumError :=
  match s with
  | EmptyString => (0, Some ErrSyntax)
  | _ => ParseUint_loop s 0
  end.

(** [ParseInt(s, 10, 64)]. *)
Definition ParseInt (s : string) : Z * option NumError :=
  match s with
  | EmptyString => (0, Some ErrSyntax)
  | String c rest =>
      let neg := Ascii.eqb c "-" in
      let s1 := if Ascii.eqb c "+" || neg then rest else s in
      match ParseUint s1 with
      | (_, Some ErrSyntax) => (0, Some ErrSyntax)
      | (un, _) =>
          let cutoff := 2 ^ (intSize - 1) in
          if negb neg && (cutoff <=? un) then (cutoff - 1, Some ErrRange)
          else if neg && (cutoff <? un) then (- cutoff, Some ErrRange)
          else (if neg then - un else un, None)
      end
  end.

(** The fast path of [Atoi]: digits accumulated without a range check. *)
Fixpoint Atoi_digits (s : string) (n : Z) : option Z :=
  match s with
  | EmptyString => Some n
  | String c s' =>
      match digit c with
      | None => None
      | Some d => Atoi_digits s' (n * 10 + d)
      end
  end.

(** [Atoi(s)] on a platform whose [int] has 64 bits. *)
Definition Atoi (s : string) : Z * option NumError :=
  let sLen := Z.of_nat (String.length s) in
  if (0 <? sLen) && (sLen <? 19) then
    match s with
    | EmptyString => (0, Some ErrSyntax)
    | String c rest =>
        let signed := Ascii.eqb c "-" || Ascii.eqb c "+" in
        let s1 := if signed then rest else s in
        if signed && (String.length s1 =? 0)%nat then (0, Some ErrSyntax)
        else
          match Atoi_digits s1 0 with
          | None => (0, Some ErrSyntax)
          | Some n => (if Ascii.eqb c "-" then - n else n, None)
          end
    end
  else ParseInt s.

End strconv.

(** ** time: instants *)

Module time.

(** An instant, as the count of nanoseconds from the zero Time (January 1,
    year 1, 00:00:00 UTC), the one instant [IsZero] reports. *)
Record Time := mkTime { sinceZero : Z }.

Definition zero : Time := mkTime 0.

(** Seconds from the zero Time to the Unix epoch. *)
Definition unixToInternal : Z :=
  (1969 * 365 + 1969 / 4 - 1969 / 100 + 1969 / 400) * 86400.

Definition wrap64 (z : Z) : Z := (z + 2 ^ 63) mod 2 ^ 64 - 2 ^ 63.

(** [time.Unix(sec, nsec)] for [0 <= nsec < 1e9]; the seconds are shifted
    to the zero Time on 64 bits. *)
Definition Unix (sec nsec : Z) : Time :=
  mkTime (wrap64 (sec + unixToInternal) * 1000000000 + nsec).

Definition IsZero (t : Time) : bool := sinceZero t =? 0.

Definition Before (t u : Time) : bool := sinceZero t <? sinceZero u.

(** A reading of the wall clock.  The clock of the operating system counts
    from the Unix epoch onwards, so a reading is a natural number of
    nanoseconds past the zero Time. *)
Definition Clock := N.

(** [time.Now()] at a given reading of the clock. *)
Definition Now (k : Clock) : Time := mkTime (Z.of_N k).

End time.

(** ** net/textproto: canonical header keys *)

Module textproto.

Definition isLower (n : N) : bool := ((97 <=? n) && (n <=? 122))%N.
Definition isUpper (n : N) : bool := ((65 <=? n) && (n <=? 90))%N.
Definition isDigit (n : N) : bool := ((48 <=? n) && (n <=? 57))%N.

(** The bytes of an RFC 7230 token. *)
Definition validHeaderFieldByte (c : ascii) : bool :=
  let n := Ascii.N_of_ascii c in
  isLower n || isUpper n || isDigit n
  || existsb (N.eqb n) [33; 35; 36; 37; 38; 39; 42; 43; 45; 46; 94; 95; 96; 124; 126]%N.

Fixpoint allValid (s : string) : bool :=
  match s with
  | EmptyString => true
  | String c s' => validHeaderFieldByte c && allValid s'
  end.

(** First letter and letters after a hyphen in upper case, the others in
    lower case. *)
Fixpoint canonicalize (upper : bool) (s : string) : string :=
  match s with
  | EmptyString => EmptyString
  | String c s' =>
      let n := Ascii.N_of_ascii c in
      let n' := if upper && isLower n then (n - 32)%N
                else if negb upper && isUpper n then (n + 32)%N
                else n in
      String (Ascii.ascii_of_N n') (canonicalize (N.eqb n' 45) s')
  end.

(** A key with a byte outside the token bytes is returned as it is. *)
Definition CanonicalMIMEHeaderKey (s : string) : string :=
  if allValid s then canonicalize true s else s.

End textproto.

(** ** io/ioutil: response bodies as streams *)

Module ioutil.

(** A body that has yet to deliver [pending] and then ends, with
    end-of-file or with the error [failure]. *)
Record ReadCloser := mkBody { pending : string; failure : option string }.

(** [ioutil.NopCloser(bytes.NewBuffer(data))]. *)
Definition NopCloser (data : string) : ReadCloser := mkBody data None.

(** [ioutil.ReadAll]: what was read and the error that ended the reading,
    with the stream as the reading leaves it. *)
Definition ReadAll (b : ReadCloser) : ReadCloser * (string * option string) :=
  (mkBody "" (failure b), (pending b, failure b)).

End ioutil.

(** ** io: bounded copies *)

Module io.

(** [s] without its first [n] bytes; empty when it has no more than [n]. *)
Fixpoint skip (n : nat) (s : string) : string :=
  match n, s with
  | O, _ => s
  | S _, EmptyString => EmptyString
  | S n', String _ s' => skip n' s'
  end.

(** [io.CopyN(ioutil.Discard, src, n)], by what it leaves of [src]: [n]
    bytes are read and dropped, or all that is pending when that is less;
    what the call returns is not used. *)
Definition CopyN_Discard (src : ioutil.ReadCloser) (n : Z) : ioutil.ReadCloser :=
  ioutil.mkBody (skip (Z.to_nat n) (ioutil.pending src)) (ioutil.failure src).

End io.

(** ** What is taken from the libraries *)

(** What a library call returns next to its error. *)
Inductive result (A : Type) : Type :=
| Ok (a : A)
| Err (msg : string).

Arguments Ok {A} a.
Arguments Err {A} msg.

(** The library operations the client calls and this development does not
    define.  A [*url.URL] is carried by its string form, so [String()] is
    the identity on it. *)
Class GoLib := {
  (** the values passed as [interface{}] request bodies *)
  Value : Type;
  (** [(u *url.URL).Parse(ref)]: [ref] resolved against [u] *)
  URL_Parse : string -> string -> result string;
  (** [(u *url.URL).Parse(ref)] for a nil [u]: the error of a [ref] that
      does not parse, the URL of a [ref] with a scheme, which is resolved
      without a look at [u], and for a [ref] without one the dereference of
      [u], a panic ([None]) *)
  nil_URL_Parse : string -> option (result string);
  (** [url.Parse(rawURL)] *)
  url_Parse : string -> result string;
  (** [json.Marshal(v)] *)
  json_Marshal : Value -> result string;
  (** [json.Unmarshal(data, errorResponse)], by what it leaves in the field
      [Message], given what the field held, and by its error; what the same
      call does through the field [Response] is [json_Unmarshal_Response]
      of the class [GoJSON] below *)
  json_Unmarshal : string -> string -> string * option string;
  (** the [%v] format of an instant *)
  Time_String : time.Time -> string
}.

(** The same library with another encoder. *)
Definition withMarshal (L : GoLib) (marshal : @Value L -> result string) : GoLib :=
  {| Value := @Value L;
     URL_Parse := @URL_Parse L;
     nil_URL_Parse := @nil_URL_Parse L;
     url_Parse := @url_Parse L;
     json_Marshal := marshal;
     json_Unmarshal := @json_Unmarshal L;
     Time_String := @Time_String L |}.

(** ** net/http: headers, requests, responses, the transport *)

Module http.

Definition MethodGet : string := "GET".
Definition MethodHead : string := "HEAD".
Definition MethodPost : string := "POST".
Definition MethodPut : string := "PUT".
Definition MethodPatch : string := "PATCH".
Definition MethodDelete : string := "DELETE".
Definition MethodOptions : string := "OPTIONS".

Definition StatusOK : Z := 200.
Definition StatusAccepted : Z := 202.
Definition StatusForbidden : Z := 403.

(** [http.StatusText]: the reason phrases of the status codes; the empty
    string for an unknown code. *)
Definition StatusText (code : Z) : string :=
  match code with
  | 100 => "Continue" | 101 => "Switching Protocols" | 102 => "Processing"
  | 103 => "Early Hints"
  | 200 => "OK" | 201 => "Created" | 202 => "Accepted"
  | 203 => "Non-Authoritative Information" | 204 => "No Content"
  | 205 => "Reset Content" | 206 => "Partial Content" | 207 => "Multi-Status"
  | 208 => "Already Reported" | 226 => "IM Used"
  | 300 => "Multiple Choices" | 301 => "Moved Permanently" | 302 => "Found"
  | 303 => "See Other" | 304 => "Not Modified" | 305 => "Use Proxy"
  | 307 => "Temporary Redirect" | 308 => "Permanent Redirect"
  | 400 => "Bad Request" | 401 => "Unauthorized" | 402 => "Payment Required"
  | 403 => "Forbidden" | 404 => "Not Found" | 405 => "Method Not Allowed"
  | 406 => "Not Acceptable" | 407 => "Proxy Authentication Required"
  | 408 => "Request Timeout" | 409 => "Conflict" | 410 => "Gone"
  | 411 => "Length Required" | 412 => "Precondition Failed"
  | 413 => "Request Entity Too Large" | 414 => "Request URI Too Long"
  | 415 => "Unsupported Media Type"
  | 416 => "Requested Range Not Satisfiable" | 417 => "Expectation Failed"
  | 418 => "I'm a teapot" | 421 => "Misdirected Request"
  | 422 => "Unprocessable Entity" | 423 => "Locked"
  | 424 => "Failed Dependency" | 425 => "Too Early"
  | 426 => "Upgrade Required" | 428 => "Precondition Required"
  | 429 => "Too Many Requests" | 431 => "Request Header Fields Too Large"
  | 451 => "Unavailable For Legal Reasons"
  | 500 => "Internal Server Error" | 501 => "Not Implemented"
  | 502 => "Bad Gateway" | 503 => "Service Unavailable"
  | 504 => "Gateway Timeout" | 505 => "HTTP Version Not Supported"
  | 506 => "Variant Also Negotiates" | 507 => "Insufficient Storage"
  | 508 => "Loop Detected" | 510 => "Not Extended"
  | 511 => "Network Authentication Required"
  | _ => ""
  end.

(** A [http.Header]: the values of each canonical key. *)
Module Header.

Abbreviation t := (gmap string (list string)).

(** [make(http.Header)]. *)
Definition make : t := ∅.

(** [h.Get(key)]: the first value of the canonical form of [key], the empty
    string when there is none. *)
Definition Get (h : t) (key : string) : string :=
  match h !! textproto.CanonicalMIMEHeaderKey key with
  | Some (v :: _) => v
  | _ => ""
  end.

(** [h.Set(key, value)]: the one value of the canonical form of [key]. *)
Definition Set_ (h : t) (key value : string) : t :=
  <[textproto.CanonicalMIMEHeaderKey key := [value]]> h.

End Header.

(** A [context.Context], by the chain that derived it. *)
Inductive Context :=
| Background
| WithValue (parent : Context) (key : string).

(** The body of an outbound request: none, [http.NoBody], or the bytes of a
    buffer. *)
Inductive RequestBody :=
| nilBody
| NoBody
| bufBody (data : string).

Module Request.

Record t := mk {
  ctx : Context;
  Method : string;
  URL : string;
  Header : Header.t;
  Body : RequestBody;
  ContentLength : Z
}.

(** [req.WithContext(ctx)]. *)
Definition WithContext (req : t) (c : Context) : t :=
  mk c (Method req) (URL req) (Header req) (Body req) (ContentLength req).

Definition setHeader (req : t) (key value : string) : t :=
  mk (ctx req) (Method req) (URL req) (Header.Set_ (Header req) key value)
     (Body req) (ContentLength req).

End Request.

Module Response.

Record t := mk {
  Status : string;
  StatusCode : Z;
  Header : Header.t;
  Body : ioutil.ReadCloser;
  Request : option Request.t
}.

(** [r.Body = b]. *)
Definition setBody (r : t) (b : ioutil.ReadCloser) : t :=
  mk (Status r) (StatusCode r) (Header r) b (Request r).

End Response.

(** A method is a non-empty token. *)
Definition validMethod (method : string) : bool :=
  negb (String.eqb method "") && textproto.allValid method.

Section NewRequest.
Context `{GoLib}.

(** [http.NewRequest(method, url, body)], the body being nil ([None]) or a
    [*bytes.Buffer] with the given contents.  An empty buffer makes the
    request carry [NoBody]. *)
Definition NewRequest (method url : string) (body : option string)
  : option Request.t * option string :=
  let method := if String.eqb method "" then MethodGet else method in
  if negb (validMethod method) then (None, Some "net/http: invalid method")
  else
    match url_Parse url with
    | Err e => (None, Some e)
    | Ok u =>
        let '(b, n) :=
          match body with
          | None => (nilBody, 0)
          | Some data =>
              if (String.length data =? 0)%nat then (NoBody, 0)
              else (bufBody data, Z.of_nat (String.length data))
          end in
        (Some (Request.mk Background method u Header.make b n), None)
    end.

End NewRequest.

(** A [*http.Client], by the exchange it performs, with the requests it has
    put on the wire so far. *)
Module Client.

Record t := mk {
  RoundTrip : Request.t -> Response.t;
  sent : list Request.t
}.

(** [client.Do(req)], as the README writes it, with a single result: the
    response of an exchange that took place.  An exchange that fails, and
    leaves the listing with a nil response, is no value of [RoundTrip]. *)
Definition Do (c : t) (req : Request.t) : t * Response.t :=
  (mk (RoundTrip c) (sent c ++ [req]), RoundTrip c req).

End Client.

End http.

(** ** encoding/json: decoding into an [*ErrorResponse] *)

Module json.

(** What a decoding has written through the field [Response] of an
    [*ErrorResponse].  The field is exported and carries no tag, so the key
    "Response" of a body is decoded into it; and it holds the pointer to the
    response under classification, so the decoding writes into that very
    response, or sets the pointer to nil ([kept] is false).  The fields are
    those of the response after the call.  [Body] is not among them: it is
    an interface, which no JSON value but null decodes into, and a body
    that sets it to null is not followed here. *)
Record Write := mkWrite {
  Status : string;
  StatusCode : Z;
  Header : http.Header.t;
  Request : option http.Request.t;
  kept : bool
}.

(** The decoding of a body without the key: nothing is written. *)
Definition untouched (r : http.Response.t) : Write :=
  mkWrite (http.Response.Status r) (http.Response.StatusCode r)
          (http.Response.Header r) (http.Response.Request r) true.

(** The response [r] after the decoding has written [w] into it. *)
Definition apply (r : http.Response.t) (w : Write) : http.Response.t :=
  http.Response.mk (Status w) (StatusCode w) (Header w)
                   (http.Response.Body r) (Request w).

End json.

(** [json.Unmarshal(data, errorResponse)], by what it writes through
    [errorResponse.Response], which points to the response given. *)
Class GoJSON := {
  json_Unmarshal_Response : string -> http.Response.t -> json.Write
}.

(** ** Package client: data *)

Module client.

Definition libraryVersion : string := "1.60.0".
Definition defaultBaseURL : string := "https://api.digitalocean.com/".
Definition userAgent : string := "godo/" +:+ libraryVersion.
Definition mediaType : string := "application/json".

Definition headerRateLimit : string := "RateLimit-Limit".
Definition headerRateRemaining : string := "RateLimit-Remaining".
Definition headerRateReset : string := "RateLimit-Reset".

Definition tagsBasePath : string := "v2/tags".

(** [Timestamp{t}], the instant of a payload.  The sources use the type and
    do not declare it; the README builds it as [Timestamp{time.Unix(v, 0)}]
    and reads its field [Time]. *)
Record Timestamp := mkTimestamp { Time : time.Time }.

(** The rate limit of the client: [Limit], [Remaining], [Reset]. *)
Module Rate.

Record t := mk { Limit : Z; Remaining : Z; Reset : Timestamp }.

(** The zero value: no rate information seen yet. *)
Definition zero : t := mk 0 0 (mkTimestamp time.zero).

End Rate.

(** Modelled from the spec: the pagination metadata of an envelope ("links,
    counts"), which [List] copies from the decoded root and whose types the
    sources do not declare. *)
Record Links := mkLinks { Pages : list (string * string) }.

Record Meta := mkMeta { Total : Z }.

(** [Response]: the [*http.Response] with the rate parsed from it. *)
Module Response.

Record t := mk {
  Response : http.Response.t;
  Rate : Rate.t;
  Links : option Links;
  Meta : option Meta
}.

End Response.

Module ErrorResponse.

Record t := mk { Response : http.Response.t; Message : string }.

End ErrorResponse.

Module RateLimitError.

Record t := mk {
  Rate : Rate.t;
  Response : http.Response.t;
  Message : string
}.

End RateLimitError.

(** The values of Go's [error] that the client returns: an error of a
    library, passed on as it came, or one of the two errors of the client.
    The last two are the errors of the client whose field [Response] is
    nil, as a decoding can leave it. *)
Inductive error :=
| AnError (msg : string)
| IsErrorResponse (e : ErrorResponse.t)
| IsRateLimitError (e : RateLimitError.t)
| IsErrorResponseNil (Message : string)
| IsRateLimitErrorNil (Rate : Rate.t) (Message : string).

(** How a call ends: it returns, or the goroutine panics. *)
Inductive outcome (A : Type) : Type :=
| Returns (a : A)
| Panics (msg : string).

Arguments Returns {A} a.
Arguments Panics {A} msg.

Definition nilDereference : string :=
  "invalid memory address or nil pointer dereference".

Module Client.

Record t := mk {
  client : http.Client.t;
  BaseURL : option string;
  UserAgent : string;
  Rate : Rate.t;
  headers : gmap string string
}.

(** [c.Rate = rate], between [c.ratemtx.Lock()] and [c.ratemtx.Unlock()]. *)
Definition setRate (c : t) (rate : Rate.t) : t :=
  mk (client c) (BaseURL c) (UserAgent c) rate (headers c).

Definition setClient (c : t) (hc : http.Client.t) : t :=
  mk hc (BaseURL c) (UserAgent c) (Rate c) (headers c).

End Client.

Record ListOptions := mkListOptions { Page : Z; PerPage : Z }.

Inductive ResourceType := mkResourceType (name : string).

Definition DropletResourceType : ResourceType := mkResourceType "droplet".
Definition ImageResourceType : ResourceType := mkResourceType "image".

Record Resource := mkResource { ID : string; Type_ : ResourceType }.

Record Tag := mkTag { Name : string; Resources : list Resource }.

(** Modelled from the spec: the root that [List] decodes, with the tags and
    the pagination metadata; tags.go uses the type and does not declare
    it. *)
Record tagsRoot := mkTagsRoot {
  rootTags : list Tag;
  rootLinks : option Links;
  rootMeta : option Meta
}.

Record TagsServiceOp := mkTagsServiceOp { opClient : Client.t }.

(** ** Package client: operations *)

Section Operations.
Context `{GoLib} `{GoJSON}.

(** [NewClient(httpClient)] for an [httpClient] that is not nil; the error
    of [url.Parse] is dropped and leaves a nil [BaseURL]. *)
Definition NewClient (httpClient : http.Client.t) : Client.t :=
  let baseURL := match url_Parse defaultBaseURL with
                 | Ok u => Some u
                 | Err _ => None
                 end in
  Client.mk httpClient baseURL userAgent Rate.zero ∅.

(** [New(httpClient)]: the client of [NewClient], and no error. *)
Definition New (httpClient : http.Client.t) : Client.t * option error :=
  (NewClient httpClient, None).

(** [json.NewEncoder(buf).Encode(v)], by the bytes it writes to [buf]: the
    encoding of [v], followed by a newline. *)
Definition json_Encode (v : Value) : result string :=
  match json_Marshal v with
  | Ok data => Ok (data +:+ String (ascii_of_N 10) EmptyString)
  | Err e => Err e
  end.

(** What the [switch] of [NewRequest] leaves: an early [return nil, err], or
    the variable [req], nil in the [default] case. *)
Definition switchMethod (method u : string) (body : option Value)
  : error + option http.Request.t :=
  if String.eqb method http.MethodGet || String.eqb method http.MethodHead
     || String.eqb method http.MethodOptions then
    match http.NewRequest method u None with
    | (_, Some e) => inl (AnError e)
    | (req, None) => inr req
    end
  else if String.eqb method http.MethodPost then
    let buf := match body with
               | Some v => json_Encode v
               | None => Ok ""
               end in
    match buf with
    | Err e => inl (AnError e)
    | Ok data =>
        match http.NewRequest method u (Some data) with
        | (_, Some e) => inl (AnError e)
        | (None, None) => inr None
        | (Some req, None) =>
            inr (Some (http.Request.setHeader req "Content-Type" mediaType))
        end
    end
  else inr None.

(** [c.BaseURL.Parse(urlStr)]; [None] is the panic of a nil [BaseURL] on a
    relative reference. *)
Definition resolve (c : Client.t) (urlStr : string) : option (result string) :=
  match Client.BaseURL c with
  | Some base => Some (URL_Parse base urlStr)
  | None => nil_URL_Parse urlStr
  end.

(** [c.NewRequest(ctx, method, urlStr, body)].  [req.Header.Set] on a nil
    [req] dereferences a nil pointer. *)
Definition NewRequest (c : Client.t) (ctx : http.Context)
    (method urlStr : string) (body : option Value)
  : outcome (option http.Request.t * option error) :=
  match resolve c urlStr with
  | None => Panics nilDereference
  | Some (Err e) => Returns (None, Some (AnError e))
  | Some (Ok u) =>
      match switchMethod method u body with
      | inl e => Returns (None, Some e)
      | inr None => Panics nilDereference
      | inr (Some req) =>
          let req := http.Request.setHeader req "Accept" mediaType in
          let req := http.Request.setHeader req "User-Agent" (Client.UserAgent c) in
          Returns (Some req, None)
      end
  end.

(** [parseRate(r)]: each header that is there is read into its field of
    [r.Rate]; the error of the conversion is dropped.  The listing writes
    the fields through the name [response], which is read as the
    argument. *)
Definition parseRate (r : Response.t) : Response.t :=
  let h := http.Response.Header (Response.Response r) in
  let rate := Response.Rate r in
  let limit := http.Header.Get h headerRateLimit in
  let rate :=
    if negb (String.eqb limit "")
    then Rate.mk (fst (strconv.Atoi limit)) (Rate.Remaining rate) (Rate.Reset rate)
    else rate in
  let remaining := http.Header.Get h headerRateRemaining in
  let rate :=
    if negb (String.eqb remaining "")
    then Rate.mk (Rate.Limit rate) (fst (strconv.Atoi remaining)) (Rate.Reset rate)
    else rate in
  let reset := http.Header.Get h headerRateReset in
  let rate :=
    if negb (String.eqb reset "") then
      let v := fst (strconv.ParseInt reset) in
      if negb (v =? 0)
      then Rate.mk (Rate.Limit rate) (Rate.Remaining rate)
                   (mkTimestamp (time.Unix v 0))
      else rate
    else rate in
  Response.mk (Response.Response r) rate (Response.Links r) (Response.Meta r).

(** [newResponse(r)]: a fresh [Response] around [r], its rate parsed. *)
Definition newResponse (r : http.Response.t) : Response.t :=
  parseRate (Response.mk r Rate.zero None None).

(** An [*ErrorResponse], and a [*RateLimitError], whose field [Response]
    is the pointer [r] when the decoding has kept it, and nil when not. *)
Definition errorResponseOf (kept : bool) (r : http.Response.t)
    (message : string) : error :=
  if kept then IsErrorResponse (ErrorResponse.mk r message)
  else IsErrorResponseNil message.

Definition rateLimitErrorOf (kept : bool) (rate : Rate.t)
    (r : http.Response.t) (message : string) : error :=
  if kept then IsRateLimitError (RateLimitError.mk rate r message)
  else IsRateLimitErrorNil rate message.

(** The part that both listings of [CheckResponse] share, from
    [errorResponse := &ErrorResponse{Response: r}] on: the body is read
    once; a body that cannot be read or is empty is not decoded and leaves
    the message empty; a body that is read is decoded into [errorResponse],
    which writes the message and, through [errorResponse.Response], the
    response [r] itself, and a body that does not decode becomes the
    message.  The result is the response as this leaves it, the bytes read,
    the message, and whether [errorResponse.Response] still is [r]. *)
Definition readErrorResponse (r : http.Response.t)
  : http.Response.t * string * string * bool :=
  let '(body, (data, err)) := ioutil.ReadAll (http.Response.Body r) in
  let r := http.Response.setBody r body in
  match err with
  | None =>
      if (0 <? String.length data)%nat then
        let w := json_Unmarshal_Response data r in
        let message :=
          match json_Unmarshal data "" with
          | (_, Some _) => data
          | (m, None) => m
          end in
        (json.apply r w, data, message, json.kept w)
      else (r, data, "", true)
  | Some _ => (r, data, "", true)
  end.

(** [CheckResponse] of the section on client error handling.  The error
    holds the pointer [r], so it is given the response as the call leaves
    it, which is returned as well. *)
Definition CheckResponse0 (r : http.Response.t)
  : http.Response.t * option error :=
  let c := http.Response.StatusCode r in
  if (200 <=? c) && (c <=? 299) then (r, None)
  else
    let '(r, _, message, kept) := readErrorResponse r in
    (r, Some (errorResponseOf kept r message)).

(** [CheckResponse] of the section on custom errors.  The listing elides
    its beginning and the other cases of its switch; here the beginning is
    the one of the listing above, which leaves [errorResponse] and [data],
    and the switch has the one case that the listing shows: the body is put
    back after the reading, and a response whose status is 403 and whose
    remaining quota reads "0", when the switch is reached, is a
    [RateLimitError].  [parseRate(r)], of which the README has the version
    on a [*Response], is the rate of [newResponse(r)]. *)
Definition CheckResponse (r : http.Response.t)
  : http.Response.t * option error :=
  let c := http.Response.StatusCode r in
  if (200 <=? c) && (c <=? 299) then (r, None)
  else
    let '(r, data, message, kept) := readErrorResponse r in
    let r := http.Response.setBody r (ioutil.NopCloser data) in
    if (http.Response.StatusCode r =? http.StatusForbidden)
       && String.eqb (http.Header.Get (http.Response.Header r) headerRateRemaining) "0"
    then
      (r, Some (rateLimitErrorOf kept (Response.Rate (newResponse r)) r message))
    else (r, Some (errorResponseOf kept r message)).

(** [c.checkRateLimitBeforeDo(req)] when the clock reads [now]. *)
Definition checkRateLimitBeforeDo (c : Client.t) (now : time.Clock)
    (req : http.Request.t) : option RateLimitError.t :=
  let rate := Client.Rate c in
  if negb (time.IsZero (Time (Rate.Reset rate)))
     && (Rate.Remaining rate =? 0)
     && time.Before (time.Now now) (Time (Rate.Reset rate))
  then
    let resp :=
      http.Response.mk (http.StatusText http.StatusForbidden)
        http.StatusForbidden http.Header.make (ioutil.NopCloser "") (Some req) in
    Some (RateLimitError.mk rate resp
            ("API rate limit of " +:+ pretty (Rate.Limit rate)
             +:+ " still exceeded until " +:+ Time_String (Time (Rate.Reset rate))
             +:+ ", not making remote request."))
  else None.

(** Modelled from the spec: the last step of [Do], which the README leaves
    out of its listing, "decode the success body into the caller-supplied
    output target; decoding failure is reported" as an error.  [decode]
    stands for [json] decoding at the type of the target. *)
Definition decodeBody {T : Type} (decode : string -> T -> T * option string)
    (r : http.Response.t) (v : T) : http.Response.t * T * option error :=
  let '(body, (data, err)) := ioutil.ReadAll (http.Response.Body r) in
  let r := http.Response.setBody r body in
  match err with
  | Some e => (r, v, Some (AnError e))
  | None =>
      let '(v, derr) := decode data v in
      (r, v, option_map AnError derr)
  end.

(** [c.Do(ctx, req, v)] when the clock reads [now]: the client and the
    target as the call leaves them, and the two results. *)
Definition Do {T : Type} (decode : string -> T -> T * option string)
    (c : Client.t) (now : time.Clock) (ctx : http.Context)
    (req : http.Request.t) (v : T)
  : Client.t * T * (Response.t * option error) :=
  match checkRateLimitBeforeDo c now req with
  | Some err =>
      (c, v,
       (Response.mk (RateLimitError.Response err) (RateLimitError.Rate err) None None,
        Some (IsRateLimitError err)))
  | None =>
      let req := http.Request.WithContext req ctx in
      let '(hc, resp) := http.Client.Do (Client.client c) req in
      let response := newResponse resp in
      let c := Client.setRate (Client.setClient c hc) (Response.Rate response) in
      let '(resp, err) := CheckResponse resp in
      match err with
      | Some e =>
          (c, v, (Response.mk resp (Response.Rate response) None None, Some e))
      | None =>
          let '(resp, v, derr) := decodeBody decode resp v in
          (c, v, (Response.mk resp (Response.Rate response) None None, derr))
      end
  end.

(** *** The deferred reading of the body *)

Definition maxBodySlurpSize : Z := Z.shiftl 2 10.

(** The function that the [Do] of the section on the Do function defers, by
    what it leaves of [resp.Body] before closing it: when the declared
    length [resp.ContentLength], here [contentLength], is unknown (-1) or at
    most [maxBodySlurpSize], up to [maxBodySlurpSize] bytes are read and
    dropped.  The error of [Close] goes to a variable that the results do
    not read. *)
Definition drainBody (contentLength : Z) (body : ioutil.ReadCloser)
  : ioutil.ReadCloser :=
  if (contentLength =? -1) || (contentLength <=? maxBodySlurpSize)
  then io.CopyN_Discard body maxBodySlurpSize
  else body.

(** *** Reading a classification *)

(** The outcomes a response is classified into. *)
Inductive classification :=
| NoError
| Generic
| RateLimited
| Library.

Definition classify (e : option error) : classification :=
  match e with
  | None => NoError
  | Some (IsErrorResponse _) | Some (IsErrorResponseNil _) => Generic
  | Some (IsRateLimitError _) | Some (IsRateLimitErrorNil _ _) => RateLimited
  | Some (AnError _) => Library
  end.

(** The message an error carries; none without an error. *)
Definition errorMessage (e : option error) : string :=
  match e with
  | None => ""
  | Some (IsErrorResponse e) => ErrorResponse.Message e
  | Some (IsRateLimitError e) => RateLimitError.Message e
  | Some (IsErrorResponseNil msg) | Some (IsRateLimitErrorNil _ msg) => msg
  | Some (AnError msg) => msg
  end.

(** The response with its body read to the end. *)
Definition drained (r : http.Response.t) : http.Response.t :=
  http.Response.setBody r
    (ioutil.mkBody "" (ioutil.failure (http.Response.Body r))).

(** Whether the body of [r] is decoded: it was read without an error and
    is not empty. *)
Definition decodes (r : http.Response.t) : bool :=
  match ioutil.failure (http.Response.Body r) with
  | None => negb (String.eqb (ioutil.pending (http.Response.Body r)) "")
  | Some _ => false
  end.

(** What the decoding of the body of [r] writes into [r]. *)
Definition written (r : http.Response.t) : json.Write :=
  if decodes r
  then json_Unmarshal_Response (ioutil.pending (http.Response.Body r)) (drained r)
  else json.untouched (drained r).

(** The response as the first listing leaves it, and as the final one
    does, with the body put back. *)
Definition decoded (r : http.Response.t) : http.Response.t :=
  json.apply (drained r) (written r).

Definition restored (r : http.Response.t) : http.Response.t :=
  http.Response.setBody (decoded r)
    (ioutil.NopCloser (ioutil.pending (http.Response.Body r))).

(** The message of a generic error in the words of the specification: the
    message decoded from the body when the body has the shape of an error
    message, otherwise the raw text of the body, otherwise (the body is
    empty or cannot be read) the empty string. *)
Definition specMessage (body : ioutil.ReadCloser) : string :=
  match ioutil.failure body with
  | Some _ => ""
  | None =>
      if String.eqb (ioutil.pending body) "" then ""
      else
        match json_Unmarshal (ioutil.pending body) "" with
        | (m, None) => m
        | (_, Some _) => ioutil.pending body
        end
  end.

(** *** The tags service *)

(** The interface [TagsService]; each method runs on the service, which
    holds the client, at a reading of the clock, and may leave the client
    changed. *)
Class TagsService (S : Type) := {
  List : S -> time.Clock -> http.Context -> option ListOptions ->
         outcome (S * (list Tag * option Response.t * option error));
  Get : S -> time.Clock -> http.Context -> string ->
        outcome (S * (option Tag * option Response.t * option error));
  Create : S -> time.Clock -> http.Context -> string ->
           outcome (S * (option Tag * option Response.t * option error));
  Delete : S -> time.Clock -> http.Context -> string ->
           outcome (S * (option Response.t * option error))
}.

Section Tags.

(** [addOptions(path, opt)], the query of [opt] added to [path]; tags.go
    calls it and the sources do not hold it. *)
Variable addOptions : string -> option ListOptions -> result string.

(** [json] decoding of a body into a [tagsRoot]. *)
Variable decodeTagsRoot : string -> tagsRoot -> tagsRoot * option string.

(** [s.List(ctx, opt)]; a nil slice of tags is the empty list. *)
Definition TagsServiceOp_List (s : TagsServiceOp) (now : time.Clock)
    (ctx : http.Context) (opt : option ListOptions)
  : outcome (TagsServiceOp * (list Tag * option Response.t * option error)) :=
  match addOptions tagsBasePath opt with
  | Err e => Returns (s, ([], None, Some (AnError e)))
  | Ok path =>
      match NewRequest (opClient s) ctx http.MethodGet path None with
      | Panics msg => Panics msg
      | Returns (_, Some e) => Returns (s, ([], None, Some e))
      | Returns (None, None) => Panics nilDereference
      | Returns (Some req, None) =>
          let root := mkTagsRoot [] None None in
          let '(c, root, (resp, err)) :=
            Do decodeTagsRoot (opClient s) now ctx req root in
          let s := mkTagsServiceOp c in
          match err with
          | Some e => Returns (s, ([], Some resp, Some e))
          | None =>
              let resp :=
                match rootLinks root with
                | Some l => Response.mk (Response.Response resp) (Response.Rate resp)
                                        (Some l) (Response.Meta resp)
                | None => resp
                end in
              let resp :=
                match rootMeta root with
                | Some m => Response.mk (Response.Response resp) (Response.Rate resp)
                                        (Response.Links resp) (Some m)
                | None => resp
                end in
              Returns (s, (rootTags root, Some resp, None))
          end
      end
  end.

(** [s.Get(ctx, name)]. *)
Definition TagsServiceOp_Get (s : TagsServiceOp) (now : time.Clock)
    (ctx : http.Context) (name : string)
  : outcome (TagsServiceOp * (option Tag * option Response.t * option error)) :=
  Returns (s, (None, None, None)).

(** [s.Create(ctx, some)]. *)
Definition TagsServiceOp_Create (s : TagsServiceOp) (now : time.Clock)
    (ctx : http.Context) (some : string)
  : outcome (TagsServiceOp * (option Tag * option Response.t * option error)) :=
  Returns (s, (None, None, None)).

(** [s.Delete(ctx, some)]. *)
Definition TagsServiceOp_Delete (s : TagsServiceOp) (now : time.Clock)
    (ctx : http.Context) (some : string)
  : outcome (TagsServiceOp * (option Response.t * option error)) :=
  Returns (s, (None, None)).

(** [var _ TagsService = &TagsServiceOp{}]. *)
#[export] Instance TagsServiceOp_TagsService : TagsService TagsServiceOp := {
  List := TagsServiceOp_List;
  Get := TagsServiceOp_Get;
  Create := TagsServiceOp_Create;
  Delete := TagsServiceOp_Delete
}.

End Tags.

End Operations.

End client.

(** ** An instance for the examples *)

(** A small library to run the client on: a reference is resolved by
    appending it to the base, a parsed URL is its text, a value is a string
    and is encoded between quotes, and the bodies that decode are a message
    between the braces below, and a key "Response" with a status code or
    with null.  The theorems hold for every instance; this one serves the
    concrete cases. *)
Module sample.

Import client.

Definition quote : string := String (ascii_of_N 34) EmptyString.

Definition messageOpen : string :=
  "{" +:+ quote +:+ "message" +:+ quote +:+ ":" +:+ quote.

Definition messageClose : string := quote +:+ "}".

(** The bodies that write through the field [Response]: the key with a
    status code, and the key with null. *)
Definition responseOpen : string :=
  "{" +:+ quote +:+ "Response" +:+ quote +:+ ":{"
  +:+ quote +:+ "StatusCode" +:+ quote +:+ ":".

Definition responseClose : string := "}}".

Definition responseNull : string :=
  "{" +:+ quote +:+ "Response" +:+ quote +:+ ":null}".

(** The number between [responseOpen] and [responseClose], when [data] has
    that form. *)
Definition statusCodeOf (data : string) : option Z :=
  let n := String.length data in
  let k := (String.length responseOpen + String.length responseClose)%nat in
  if (k <? n)%nat
     && String.eqb (String.substring 0 (String.length responseOpen) data)
                   responseOpen
     && String.eqb (String.substring (n - String.length responseClose)
                                     (String.length responseClose) data)
                   responseClose
  then match strconv.Atoi (String.substring (String.length responseOpen)
                                            (n - k) data) with
       | (code, None) => Some code
       | (_, Some _) => None
       end
  else None.

(** The text between [messageOpen] and [messageClose], when [data] has that
    form; the empty object and the bodies with the key "Response" decode
    and leave the message as it was. *)
Definition unmarshal (data message : string) : string * option string :=
  let n := String.length data in
  let k := (String.length messageOpen + String.length messageClose)%nat in
  if String.eqb data "{}" || String.eqb data responseNull then (message, None)
  else if match statusCodeOf data with Some _ => true | None => false end
  then (message, None)
  else if (k <=? n)%nat
     && String.eqb (String.substring 0 (String.length messageOpen) data) messageOpen
     && String.eqb (String.substring (n - String.length messageClose)
                              (String.length messageClose) data) messageClose
  then (String.substring (String.length messageOpen) (n - k) data, None)
  else (message, Some "invalid character")%string.

(** What these bodies write into the response: the status code, or nil
    into the pointer; every other body writes nothing. *)
Definition unmarshalResponse (data : string) (r : http.Response.t) : json.Write :=
  if String.eqb data responseNull
  then json.mkWrite (http.Response.Status r) (http.Response.StatusCode r)
                    (http.Response.Header r) (http.Response.Request r) false
  else match statusCodeOf data with
       | Some code =>
           json.mkWrite (http.Response.Status r) code
                        (http.Response.Header r) (http.Response.Request r) true
       | None => json.untouched r
       end.

(** Whether a reference is absolute. *)
Definition absolute (ref : string) : bool :=
  String.prefix "http://" ref || String.prefix "https://" ref.

#[export] Instance lib : GoLib := {
  Value := string;
  URL_Parse base ref := Ok (base +:+ ref);
  nil_URL_Parse ref := if absolute ref then Some (Ok ref) else None;
  url_Parse rawURL := Ok rawURL;
  json_Marshal v := Ok (quote +:+ v +:+ quote);
  json_Unmarshal := unmarshal;
  Time_String t := pretty (time.sinceZero t)
}.

#[export] Instance decoder : GoJSON := {
  json_Unmarshal_Response := unmarshalResponse
}.

Definition addOptions (path : string) (opt : option ListOptions) : result string :=
  match opt with
  | None => Ok path
  | Some o =>
      if (Page o =? 0) && (PerPage o =? 0) then Ok path
      else Ok (path +:+ "?page=" +:+ pretty (Page o)
               +:+ "&per_page=" +:+ pretty (PerPage o))
  end.

Definition decodeTagsRoot (data : string) (root : tagsRoot)
  : tagsRoot * option string :=
  if String.eqb data "{}" then (root, None) else (root, Some "invalid character").

(** A server that answers every request with [code], the headers [h] and
    the body [body]. *)
Definition server (code : Z) (h : http.Header.t) (body : string) : http.Client.t :=
  http.Client.mk
    (fun req => http.Response.mk (http.StatusText code) code h
                                 (ioutil.NopCloser body) (Some req))
    [].

Definition getTags : http.Request.t :=
  http.Request.mk http.Background "GET" "https://api.digitalocean.com/v2/tags"
    (http.Header.Set_ (http.Header.Set_ http.Header.make "Accept" mediaType)
                      "User-Agent" userAgent)
    http.nilBody 0.

(** One hour past the Unix epoch, and a reading of the clock half an hour
    past it. *)
Definition resetAt : Timestamp := mkTimestamp (time.Unix 3600 0).

Definition halfPast : time.Clock :=
  Z.to_N ((time.unixToInternal + 1800) * 1000000000).

Definition root : tagsRoot := mkTagsRoot [] None None.

(** A client with five requests left, as far as it knows. *)
Definition fiveLeft : Client.t :=
  Client.setRate (NewClient (server 200 ∅ "{}")) (Rate.mk 100 5 resetAt).

(** The same client in front of a server that reports seven requests left. *)
Definition sevenReported : Client.t :=
  Client.setRate
    (NewClient (server 200 (http.Header.Set_ http.Header.make headerRateRemaining "7")
                       "{}"))
    (Rate.mk 100 5 resetAt).

(** A 403 that reports an exhausted quota, and a 500 with a body that is no
    JSON. *)
Definition exhausted : http.Response.t :=
  http.Response.mk "403 Forbidden" 403
    (http.Header.Set_ (http.Header.Set_ http.Header.make headerRateRemaining "0")
                      headerRateLimit "100")
    (ioutil.NopCloser (messageOpen +:+ "quota exceeded" +:+ messageClose))
    (Some getTags).

Definition broken : http.Response.t :=
  http.Response.mk "500 Internal Server Error" 500 http.Header.make
    (ioutil.NopCloser "upstream failure") (Some getTags).

(** A client that was told its quota of 100 is used up until [resetAt]. *)
Definition throttled : Client.t :=
  Client.setRate (NewClient (server 200 ∅ "{}")) (Rate.mk 100 0 resetAt).

(** Whether [s] holds the byte [n]. *)
Fixpoint hasByte (n : N) (s : string) : bool :=
  match s with
  | EmptyString => false
  | String c s' => N.eqb (N_of_ascii c) n || hasByte n s'
  end.

(** A stricter library, to run the failures on: a reference with a space
    does not resolve, a URL with a percent sign does not parse, and the
    empty value does not encode. *)
Definition strict : GoLib := {|
  Value := string;
  URL_Parse base ref :=
    if hasByte 32 ref then Err "invalid character in URL"
    else Ok (base +:+ ref);
  nil_URL_Parse ref :=
    if hasByte 32 ref then Some (Err "invalid character in URL")
    else if absolute ref then Some (Ok ref) else None;
  url_Parse rawURL :=
    if hasByte 37 rawURL then Err "invalid URL escape" else Ok rawURL;
  json_Marshal v :=
    if String.eqb v "" then Err "unsupported value"
    else Ok (quote +:+ v +:+ quote);
  json_Unmarshal := unmarshal;
  Time_String t := pretty (time.sinceZero t)
|}.

(** A server that refuses with 403 and reports the quota used up until one
    hour past the epoch, and a fresh client in front of it. *)
Definition quotaServer : http.Client.t :=
  server 403
    (http.Header.Set_ (http.Header.Set_ http.Header.make headerRateRemaining "0")
                      headerRateReset "3600")
    "{}".

Definition beforeQuota : Client.t := NewClient quotaServer.

(** A fresh client in front of a server that fails with 500. *)
Definition failing : Client.t := NewClient (server 500 ∅ "upstream failure").

(** Three quarters of an hour, and two hours, past the epoch. *)
Definition threeQuarters : time.Clock :=
  Z.to_N ((time.unixToInternal + 2700) * 1000000000).

Definition twoHours : time.Clock :=
  Z.to_N ((time.unixToInternal + 7200) * 1000000000).

(** A response whose body broke off after some bytes. *)
Definition cutOff : http.Response.t :=
  http.Response.mk "502 Bad Gateway" 502 http.Header.make
    (ioutil.mkBody "upstr" (Some "unexpected EOF")) (Some getTags).

(** A 403 that reports an exhausted quota, with a body that writes the
    status code 500 through the field [Response]. *)
Definition rewritten : http.Response.t :=
  http.Response.mk "403 Forbidden" 403
    (http.Header.Set_ http.Header.make headerRateRemaining "0")
    (ioutil.NopCloser (responseOpen +:+ "500" +:+ responseClose))
    (Some getTags).


(** A 202 with a body. *)
Definition accepted : http.Response.t :=
  http.Response.mk "202 Accepted" 202 http.Header.make
    (ioutil.NopCloser "{}") (Some getTags).

End sample.

(** ** Properties *)

Import client.

Section Pipeline.
Context `{GoLib} `{GoJSON}.

(** *** The rate parsed from a response *)

Example Atoi_decimal :
  strconv.Atoi "4999" = (4999, None) /\ strconv.Atoi "-12" = (-12, None)
  /\ strconv.Atoi "+7" = (7, None).
Proof. repeat split. Qed.

Example Atoi_syntax :
  strconv.Atoi "12a" = (0, Some strconv.ErrSyntax)
  /\ strconv.Atoi "-" = (0, Some strconv.ErrSyntax)
  /\ strconv.Atoi " 1" = (0, Some strconv.ErrSyntax).
Proof. repeat split. Qed.

(** A number outside 64 bits converts to the nearest end of the range, with
    a range error. *)
Example Atoi_range :
  strconv.Atoi "9223372036854775807" = (9223372036854775807, None)
  /\ strconv.Atoi "9223372036854775808"
     = (9223372036854775807, Some strconv.ErrRange)
  /\ strconv.Atoi "-9223372036854775809"
     = (-9223372036854775808, Some strconv.ErrRange)
  /\ strconv.Atoi "99999999999999999999999x"
     = (9223372036854775807, Some strconv.ErrRange).
Proof. repeat split. Qed.

Example canonical_keys :
  textproto.CanonicalMIMEHeaderKey headerRateRemaining = "Ratelimit-Remaining"
  /\ textproto.CanonicalMIMEHeaderKey "user-agent" = "User-Agent"
  /\ textproto.CanonicalMIMEHeaderKey "no token" = "no token".
Proof. repeat split. Qed.

Example Unix_epoch :
  time.Unix 0 0 = time.mkTime (62135596800 * 1000000000)
  /\ time.IsZero (time.Unix (- 62135596800) 0) = true.
Proof. repeat split. Qed.

Lemma Atoi_empty : strconv.Atoi "" = (0, Some strconv.ErrSyntax).
Proof. reflexivity. Qed.

(** A string that converts without an error is not empty. *)
Lemma Atoi_ok_nonempty (s : string) (n : Z) :
  strconv.Atoi s = (n, None) -> s <> "".
Proof. intros Hs ->. rewrite Atoi_empty in Hs. discriminate. Qed.

(** The field [Remaining] of a fresh response: the converted header, zero
    without the header. *)
Lemma newResponse_Remaining (r : http.Response.t) :
  Rate.Remaining (Response.Rate (newResponse r)) =
  let s := http.Header.Get (http.Response.Header r) headerRateRemaining in
  if String.eqb s "" then 0 else fst (strconv.Atoi s).
Proof.
  unfold newResponse, parseRate. cbn [Response.Response Response.Rate].
  set (h := http.Response.Header r).
  destruct (String.eqb (http.Header.Get h headerRateLimit) "");
    destruct (String.eqb (http.Header.Get h headerRateRemaining) "");
    destruct (String.eqb (http.Header.Get h headerRateReset) "");
    cbn; try reflexivity;
    destruct (fst (strconv.ParseInt (http.Header.Get h headerRateReset)) =? 0);
    reflexivity.
Qed.

(** The rate of a fresh response is read from the headers alone. *)
Lemma newResponse_Rate_headers (r1 r2 : http.Response.t) :
  http.Response.Header r1 = http.Response.Header r2 ->
  Response.Rate (newResponse r1) = Response.Rate (newResponse r2).
Proof.
  intros Hh. unfold newResponse, parseRate.
  cbn [Response.Response Response.Rate]. rewrite Hh. reflexivity.
Qed.

(** *** The guard before the exchange *)

(** No reading of the clock lies before the zero Time. *)
Lemma Before_Now_not_zero (now : time.Clock) (t : time.Time) :
  time.Before (time.Now now) t = true -> time.IsZero t = false.
Proof.
  unfold time.Before, time.Now, time.IsZero. cbn [time.sinceZero].
  intros Hlt. apply Z.ltb_lt in Hlt. apply Z.eqb_neq. lia.
Qed.

Lemma checkRateLimitBeforeDo_unset (c : Client.t) (now : time.Clock)
    (req : http.Request.t) :
  time.IsZero (Time (Rate.Reset (Client.Rate c))) = true ->
  checkRateLimitBeforeDo c now req = None.
Proof. intros Hz. unfold checkRateLimitBeforeDo. rewrite Hz. reflexivity. Qed.

(** *** One exchange *)

(** A call that the guard lets through puts the request on the wire and
    caches the rate of the response it gets. *)
Lemma Do_exchange {T : Type} (decode : string -> T -> T * option string)
    (c : Client.t) (now : time.Clock) (ctx : http.Context)
    (req : http.Request.t) (v : T) :
  checkRateLimitBeforeDo c now req = None ->
  let req' := http.Request.WithContext req ctx in
  let resp := http.Client.RoundTrip (Client.client c) req' in
  (Do decode c now ctx req v).1.1 =
  Client.setRate
    (Client.setClient c
       (http.Client.mk (http.Client.RoundTrip (Client.client c))
                       (http.Client.sent (Client.client c) ++ [req'])))
    (Response.Rate (newResponse resp)).
Proof.
  intros Hguard. unfold Do. rewrite Hguard. unfold http.Client.Do.
  destruct (CheckResponse _) as [resp' [e|]]; [reflexivity|].
  destruct (decodeBody _ _ _) as [[resp'' v'] derr]. reflexivity.
Qed.

(** A header that is absent reads as the empty string. *)
Lemma Get_absent (h : http.Header.t) (key : string) :
  h !! textproto.CanonicalMIMEHeaderKey key = None -> http.Header.Get h key = "".
Proof. intros Hnone. unfold http.Header.Get. rewrite Hnone. reflexivity. Qed.

(** C1: when the cached rate has no request remaining and the clock reads
    an instant strictly before the reset, [Do] leaves the client as it is,
    the transport has been given nothing, and the call returns a
    [RateLimitError] that carries the cached rate and a response made on the
    spot, with status 403, for the request. *)
Theorem Do_rate_limited {T : Type} (decode : string -> T -> T * option string)
    (c : Client.t) (now : time.Clock) (ctx : http.Context)
    (req : http.Request.t) (v : T) :
  Rate.Remaining (Client.Rate c) = 0 ->
  time.Before (time.Now now) (Time (Rate.Reset (Client.Rate c))) = true ->
  exists err : RateLimitError.t,
    Do decode c now ctx req v =
      (c, v, (Response.mk (RateLimitError.Response err) (Client.Rate c) None None,
              Some (IsRateLimitError err)))
    /\ RateLimitError.Rate err = Client.Rate c
    /\ http.Response.StatusCode (RateLimitError.Response err) = 403
    /\ http.Response.Request (RateLimitError.Response err) = Some req
    /\ http.Client.sent (Client.client (Do decode c now ctx req v).1.1) =
       http.Client.sent (Client.client c).
Proof.
  intros Hrem Hbefore.
  pose proof (Before_Now_not_zero _ _ Hbefore) as Hset.
  unfold Do, checkRateLimitBeforeDo.
  rewrite Hset, Hrem, Hbefore. cbn [negb andb Z.eqb].
  eexists. repeat split.
Qed.

(** C7: with the zero rate cached (no limit, nothing remaining, the reset
    unset) the guard never holds a request back, and [Do] puts the request
    on the wire. *)
Theorem Do_zero_rate_sends {T : Type} (decode : string -> T -> T * option string)
    (c : Client.t) (now : time.Clock) (ctx : http.Context)
    (req : http.Request.t) (v : T) :
  Client.Rate c = Rate.zero ->
  checkRateLimitBeforeDo c now req = None
  /\ http.Client.sent (Client.client (Do decode c now ctx req v).1.1) =
     (http.Client.sent (Client.client c) ++ [http.Request.WithContext req ctx])%list.
Proof.
  intros Hzero.
  assert (Hguard : checkRateLimitBeforeDo c now req = None).
  { apply checkRateLimitBeforeDo_unset. rewrite Hzero. reflexivity. }
  split; [exact Hguard|].
  rewrite (Do_exchange decode c now ctx req v Hguard). reflexivity.
Qed.

(** C3, as amended: after a call that reached the transport the cached rate
    is the one parsed from the response.  Its [Remaining] is the integer of
    the header RateLimit-Remaining when the header is there and converts;
    it is zero when the header is absent, whatever was cached before. *)
Theorem Do_caches_response_rate {T : Type}
    (decode : string -> T -> T * option string)
    (c : Client.t) (now : time.Clock) (ctx : http.Context)
    (req : http.Request.t) (v : T) :
  checkRateLimitBeforeDo c now req = None ->
  let resp := http.Client.RoundTrip (Client.client c)
                (http.Request.WithContext req ctx) in
  let c' := (Do decode c now ctx req v).1.1 in
  Client.Rate c' = Response.Rate (newResponse resp)
  /\ (forall n : Z,
        strconv.Atoi (http.Header.Get (http.Response.Header resp)
                                      headerRateRemaining) = (n, None) ->
        Rate.Remaining (Client.Rate c') = n)
  /\ (http.Response.Header resp
        !! textproto.CanonicalMIMEHeaderKey headerRateRemaining = None ->
      Rate.Remaining (Client.Rate c') = 0).
Proof.
  intros Hguard resp c'.
  assert (Hrate : Client.Rate c' = Response.Rate (newResponse resp)).
  { subst c'. rewrite (Do_exchange decode c now ctx req v Hguard). reflexivity. }
  rewrite Hrate, newResponse_Remaining. cbv zeta.
  split; [reflexivity|]. split.
  - intros n Hconv.
    destruct (String.eqb_spec
                (http.Header.Get (http.Response.Header resp) headerRateRemaining)
                "") as [Hempty|_].
    + exfalso. exact (Atoi_ok_nonempty _ _ Hconv Hempty).
    + rewrite Hconv. reflexivity.
  - intros Habsent. rewrite (Get_absent _ _ Habsent). reflexivity.
Qed.

End Pipeline.

(** *** The classifier *)

Section Classifier.
Context `{GoLib} `{GoJSON}.

Lemma success_range (code : Z) :
  (200 <=? code) && (code <=? 299) = true <-> 200 <= code <= 299.
Proof. rewrite andb_true_iff, !Z.leb_le. reflexivity. Qed.

Lemma outside_success_range (code : Z) :
  ~ (200 <= code <= 299) -> (200 <=? code) && (code <=? 299) = false.
Proof.
  intros Hout. destruct ((200 <=? code) && (code <=? 299)) eqn:Hr; [|reflexivity].
  exfalso. apply Hout, success_range, Hr.
Qed.

(** What the shared part of the two listings computes: the response as the
    reading and the decoding leave it, the bytes that were pending, the
    message as the specification words it, and whether the pointer was
    kept. *)
Lemma readErrorResponse_spec (r : http.Response.t) :
  readErrorResponse r =
  (decoded r, ioutil.pending (http.Response.Body r),
   specMessage (http.Response.Body r), json.kept (written r)).
Proof.
  unfold readErrorResponse, decoded, written, decodes, drained, specMessage,
    ioutil.ReadAll.
  destruct r as [st code h [data [e|]] rq];
    cbn [http.Response.Body http.Response.setBody http.Response.Status
         http.Response.StatusCode http.Response.Header http.Response.Request
         ioutil.pending ioutil.failure].
  - reflexivity.
  - destruct data as [|a data]; cbn [String.length Nat.ltb Nat.leb String.eqb negb].
    + reflexivity.
    + destruct (json_Unmarshal (String a data) "") as [m [e|]]; reflexivity.
Qed.

Lemma CheckResponse0_unfold (r : http.Response.t) :
  CheckResponse0 r =
  if (200 <=? http.Response.StatusCode r) && (http.Response.StatusCode r <=? 299)
  then (r, None)
  else (decoded r,
        Some (errorResponseOf (json.kept (written r)) (decoded r)
                              (specMessage (http.Response.Body r)))).
Proof.
  unfold CheckResponse0. rewrite readErrorResponse_spec.
  destruct ((200 <=? _) && (_ <=? 299)); reflexivity.
Qed.

Lemma CheckResponse_unfold (r : http.Response.t) :
  CheckResponse r =
  if (200 <=? http.Response.StatusCode r) && (http.Response.StatusCode r <=? 299)
  then (r, None)
  else if (http.Response.StatusCode (decoded r) =? 403)
          && String.eqb (http.Header.Get (http.Response.Header (decoded r))
                                         headerRateRemaining) "0"
       then (restored r,
             Some (rateLimitErrorOf (json.kept (written r))
                     (Response.Rate (newResponse (decoded r))) (restored r)
                     (specMessage (http.Response.Body r))))
       else (restored r,
             Some (errorResponseOf (json.kept (written r)) (restored r)
                                   (specMessage (http.Response.Body r)))).
Proof.
  unfold CheckResponse. rewrite readErrorResponse_spec.
  destruct ((200 <=? _) && (_ <=? 299)); [reflexivity|].
  cbv beta iota zeta. fold (restored r).
  change (http.Response.StatusCode (restored r))
    with (http.Response.StatusCode (decoded r)).
  change (http.Response.Header (restored r))
    with (http.Response.Header (decoded r)).
  rewrite (newResponse_Rate_headers (restored r) (decoded r) eq_refl).
  change http.StatusForbidden with 403.
  destruct ((_ =? 403) && _); reflexivity.
Qed.

(** The status code that the switch of the final listing reads is the one
    the decoding has left. *)
Lemma decoded_status (r : http.Response.t) :
  http.Response.StatusCode (decoded r) = json.StatusCode (written r).
Proof. reflexivity. Qed.

(** When the decoding writes nothing through the field [Response], a 403
    whose RateLimit-Remaining reads "0" is a [RateLimitError] with the rate
    parsed from the headers and the response, its body put back. *)
Lemma CheckResponse_rate_limit_kept (r : http.Response.t) :
  http.Response.StatusCode r = 403 ->
  http.Header.Get (http.Response.Header r) headerRateRemaining = "0" ->
  written r = json.untouched (drained r) ->
  CheckResponse r =
  (restored r,
   Some (IsRateLimitError
           (RateLimitError.mk (Response.Rate (newResponse r)) (restored r)
                              (specMessage (http.Response.Body r))))).
Proof.
  intros Hcode Hrem Hw. rewrite CheckResponse_unfold, Hcode.
  cbn [Z.leb Z.compare Pos.compare Pos.compare_cont andb].
  assert (Hheader : http.Response.Header (decoded r) = http.Response.Header r)
    by (unfold decoded; rewrite Hw; reflexivity).
  rewrite decoded_status, Hheader, Hw.
  cbn [json.untouched json.StatusCode json.kept drained
       http.Response.setBody http.Response.StatusCode].
  rewrite Hcode, Hrem.
  rewrite (newResponse_Rate_headers (decoded r) r Hheader).
  reflexivity.
Qed.

(** C2, on the code: a response with status 403 whose RateLimit-Remaining
    reads "0" is not classified as a [RateLimitError] when its body, decoded
    into the [ErrorResponse], writes another status code through the field
    [Response]: the case of the switch reads the status that the decoding
    left, and the error is the generic one. *)
Theorem CheckResponse_rate_limit_lost (r : http.Response.t) :
  http.Response.StatusCode r = 403 ->
  http.Header.Get (http.Response.Header r) headerRateRemaining = "0" ->
  decodes r = true ->
  json.StatusCode
    (json_Unmarshal_Response (ioutil.pending (http.Response.Body r)) (drained r))
  <> 403 ->
  classify (CheckResponse r).2 = Generic
  /\ http.Response.StatusCode (CheckResponse r).1
     = json.StatusCode
         (json_Unmarshal_Response (ioutil.pending (http.Response.Body r))
                                  (drained r)).
Proof.
  intros Hcode Hrem Hdec Hwrite. rewrite CheckResponse_unfold, Hcode.
  cbn [Z.leb Z.compare Pos.compare Pos.compare_cont andb].
  rewrite decoded_status. unfold written. rewrite Hdec.
  apply Z.eqb_neq in Hwrite. rewrite Hwrite. cbn [andb fst snd].
  split.
  - unfold errorResponseOf. destruct (json.kept _); reflexivity.
  - unfold restored, decoded, written. rewrite Hdec. reflexivity.
Qed.

(** C5, as amended: a response with status 202 is classified by the listing
    as no error, like every status from 200 to 299, and is returned as it
    was, its body unread; the code has no outcome of its own for 202. *)
Theorem CheckResponse0_accepted (r : http.Response.t) :
  http.Response.StatusCode r = http.StatusAccepted ->
  CheckResponse0 r = (r, None)
  /\ classify (CheckResponse0 r).2 = NoError.
Proof.
  intros Hcode. unfold CheckResponse0. rewrite Hcode. split; reflexivity.
Qed.

(** C6: the listing classifies a response whose status lies outside
    200..299 as a generic [ErrorResponse], whatever its body.  The message
    is the one decoded from the body when the body decodes, the raw body
    when it does not, and empty when the body is empty or cannot be read. *)
Theorem CheckResponse0_generic (r : http.Response.t) :
  ~ (200 <= http.Response.StatusCode r <= 299) ->
  let body := http.Response.Body r in
  let message := errorMessage (CheckResponse0 r).2 in
  classify (CheckResponse0 r).2 = Generic
  /\ message = specMessage body
  /\ (ioutil.pending body = "" \/ ioutil.failure body <> None -> message = "")
  /\ (forall m e,
         ioutil.failure body = None -> ioutil.pending body <> "" ->
         json_Unmarshal (ioutil.pending body) "" = (m, e) ->
         message = match e with
                   | None => m
                   | Some _ => ioutil.pending body
                   end).
Proof.
  intros Hout body message. subst message.
  rewrite CheckResponse0_unfold, (outside_success_range _ Hout).
  cbn [snd].
  assert (Hmsg : forall kept r' m,
             errorMessage (Some (errorResponseOf kept r' m)) = m)
    by (intros [|] r' m; reflexivity).
  assert (Hcls : forall kept r' m,
             classify (Some (errorResponseOf kept r' m)) = Generic)
    by (intros [|] r' m; reflexivity).
  rewrite Hmsg, Hcls. fold body.
  split; [reflexivity|]. split; [reflexivity|]. split.
  - unfold specMessage. intros [Hempty|Hfail].
    + rewrite Hempty. destruct (ioutil.failure body); reflexivity.
    + destruct (ioutil.failure body); [reflexivity|]. contradiction.
  - intros m e Hread Hdata Hdec. unfold specMessage.
    rewrite Hread, Hdec. apply String.eqb_neq in Hdata. rewrite Hdata.
    destruct e; reflexivity.
Qed.


End Classifier.

(** *** The request builder *)

Section Builder.
Context {L : GoLib}.

Lemma Get_Set (h : http.Header.t) (key value : string) :
  http.Header.Get (http.Header.Set_ h key value) key = value.
Proof.
  unfold http.Header.Get, http.Header.Set_. rewrite lookup_insert_eq. reflexivity.
Qed.

Lemma Get_Set_other (h : http.Header.t) (key key' value : string) :
  textproto.CanonicalMIMEHeaderKey key <> textproto.CanonicalMIMEHeaderKey key' ->
  http.Header.Get (http.Header.Set_ h key value) key' = http.Header.Get h key'.
Proof.
  intros Hne. unfold http.Header.Get, http.Header.Set_.
  rewrite lookup_insert_ne by exact Hne. reflexivity.
Qed.

(** [http.NewRequest] with a valid method and a URL that parses. *)
Lemma http_NewRequest_ok (method u u' : string) (body : option string) :
  method <> "" ->
  http.validMethod method = true ->
  url_Parse u = Ok u' ->
  http.NewRequest method u body =
  (Some (http.Request.mk http.Background method u' http.Header.make
           match body with
           | None => http.nilBody
           | Some data => if (String.length data =? 0)%nat then http.NoBody
                          else http.bufBody data
           end
           match body with
           | None => 0
           | Some data => if (String.length data =? 0)%nat then 0
                          else Z.of_nat (String.length data)
           end),
   None).
Proof.
  intros Hne Hvalid Hparse. unfold http.NewRequest.
  apply String.eqb_neq in Hne. rewrite Hne, Hvalid, Hparse. cbn [negb].
  destruct body as [data|]; [|reflexivity].
  destruct (String.length data =? 0)%nat; reflexivity.
Qed.

(** What the encoder writes is not empty: it ends with the newline. *)
Lemma encoded_nonempty (data : string) (c : ascii) :
  (String.length (data +:+ String c EmptyString) =? 0)%nat = false.
Proof. destruct data; reflexivity. Qed.

(** The methods of the first [case] build the request without the body. *)
Lemma switchMethod_retrieval (method u : string) (body : option Value) :
  method = http.MethodGet \/ method = http.MethodHead
  \/ method = http.MethodOptions ->
  switchMethod method u body =
  match http.NewRequest method u None with
  | (_, Some e) => inl (AnError e)
  | (req, None) => inr req
  end.
Proof. intros [-> | [-> | ->]]; reflexivity. Qed.

(** Every method that no [case] names leaves [req] nil. *)
Lemma switchMethod_default (method u : string) (body : option Value) :
  method <> http.MethodGet -> method <> http.MethodHead ->
  method <> http.MethodOptions -> method <> http.MethodPost ->
  switchMethod method u body = inr None.
Proof.
  intros Hg Hh Ho Hp. unfold switchMethod.
  apply String.eqb_neq in Hg, Hh, Ho, Hp.
  rewrite Hg, Hh, Ho, Hp. reflexivity.
Qed.

(** X1: a request that [NewRequest] returns carries the two headers, Accept
    for JSON and the User-Agent of the client. *)
Lemma NewRequest_headers (c : Client.t) (ctx : http.Context)
    (method urlStr : string) (body : option Value) (req : http.Request.t)
    (err : option error) :
  NewRequest c ctx method urlStr body = Returns (Some req, err) ->
  http.Header.Get (http.Request.Header req) "Accept" = mediaType
  /\ http.Header.Get (http.Request.Header req) "User-Agent" = Client.UserAgent c.
Proof.
  unfold NewRequest. intros Hret.
  destruct (resolve c urlStr) as [[u|e]|]; try discriminate.
  destruct (switchMethod method u body) as [e|[req0|]]; try discriminate.
  injection Hret as Hreq _. subst req.
  cbn [http.Request.setHeader http.Request.Header].
  split.
  - rewrite Get_Set_other by (vm_compute; discriminate). apply Get_Set.
  - apply Get_Set.
Qed.

(** C4, on the code: for a path that resolves, every method other than
    GET, HEAD, OPTIONS and POST (DELETE among them) ends [NewRequest] in a
    nil dereference, where the headers were to be set. *)
Theorem NewRequest_default_case_panics (c : Client.t) (ctx : http.Context)
    (method urlStr : string) (body : option Value) (base u : string) :
  Client.BaseURL c = Some base ->
  URL_Parse base urlStr = Ok u ->
  method <> http.MethodGet -> method <> http.MethodHead ->
  method <> http.MethodOptions -> method <> http.MethodPost ->
  NewRequest c ctx method urlStr body = Panics nilDereference.
Proof.
  intros Hbase Hparse Hg Hh Ho Hp. unfold NewRequest, resolve.
  rewrite Hbase, Hparse, (switchMethod_default method u body Hg Hh Ho Hp).
  reflexivity.
Qed.

(** For GET, HEAD and OPTIONS the encoder has no part in the result: with
    any other encoder in its place [NewRequest] returns the same. *)
Lemma NewRequest_retrieval_encoder (marshal : Value -> result string)
    (c : Client.t) (ctx : http.Context) (method urlStr : string)
    (body : option Value) :
  method = http.MethodGet \/ method = http.MethodHead
  \/ method = http.MethodOptions ->
  @NewRequest (withMarshal L marshal) c ctx method urlStr body
  = NewRequest c ctx method urlStr body.
Proof. intros [-> | [-> | ->]]; reflexivity. Qed.

(** C8: for a URL that resolves, GET, HEAD and OPTIONS return one and the
    same request whatever body is passed, encodable or not, and whatever the
    encoder, and that request has no body; POST with a body that encodes
    returns a request whose body is the encoding, with the newline the
    encoder ends it with, and whose Content-Type is application/json. *)
Theorem NewRequest_body (c : Client.t) (ctx : http.Context)
    (urlStr base u u' : string) :
  Client.BaseURL c = Some base ->
  URL_Parse base urlStr = Ok u ->
  url_Parse u = Ok u' ->
  (forall method : string,
      method = http.MethodGet \/ method = http.MethodHead
      \/ method = http.MethodOptions ->
      exists req : http.Request.t,
        (forall body : option Value,
            NewRequest c ctx method urlStr body = Returns (Some req, None))
        /\ (forall (marshal : Value -> result string) (body : option Value),
               @NewRequest (withMarshal L marshal) c ctx method urlStr body
               = Returns (Some req, None))
        /\ http.Request.Body req = http.nilBody
        /\ http.Request.ContentLength req = 0
        /\ http.Header.Get (http.Request.Header req) "Content-Type" = "")
  /\ (forall (v : Value) (data : string),
         json_Marshal v = Ok data ->
         exists req : http.Request.t,
           NewRequest c ctx http.MethodPost urlStr (Some v) = Returns (Some req, None)
           /\ http.Request.Body req
              = http.bufBody (data +:+ String (ascii_of_N 10) EmptyString)
           /\ http.Header.Get (http.Request.Header req) "Content-Type" = mediaType).
Proof.
  intros Hbase Hres Hparse. split.
  - intros method Hm.
    assert (Hreq : forall body : option Value,
               NewRequest c ctx method urlStr body
               = Returns
                   (Some (http.Request.setHeader
                            (http.Request.setHeader
                               (http.Request.mk http.Background method u'
                                                http.Header.make http.nilBody 0)
                               "Accept" mediaType)
                            "User-Agent" (Client.UserAgent c)), None)).
    { intros body. unfold NewRequest, resolve.
      rewrite Hbase, Hres, (switchMethod_retrieval method u body Hm).
      rewrite (http_NewRequest_ok method u u' None);
        [reflexivity| | |exact Hparse];
        destruct Hm as [-> | [-> | ->]]; (discriminate || reflexivity). }
    eexists. split; [exact Hreq|]. split; [|split; [|split]].
    + intros marshal body.
      rewrite (NewRequest_retrieval_encoder marshal c ctx method urlStr body Hm).
      apply Hreq.
    + reflexivity.
    + reflexivity.
    + reflexivity.
  - intros v data Henc. eexists. split; [|split].
    + unfold NewRequest, resolve. rewrite Hbase, Hres.
      unfold switchMethod, json_Encode. rewrite Henc.
      cbn [String.eqb Ascii.eqb Bool.eqb orb http.MethodPost http.MethodGet
           http.MethodHead http.MethodOptions].
      rewrite (http_NewRequest_ok "POST" u u' _);
        [reflexivity|discriminate|reflexivity|exact Hparse].
    + cbn [http.Request.setHeader http.Request.Body].
      rewrite encoded_nonempty. reflexivity.
    + cbn [http.Request.setHeader http.Request.Header].
      rewrite !Get_Set_other by (vm_compute; discriminate). apply Get_Set.
Qed.

End Builder.

(** *** The tags service *)

Section TagsService.
Context `{GoLib} `{GoJSON}.
Variable addOptions : string -> option ListOptions -> result string.
Variable decodeTagsRoot : string -> tagsRoot -> tagsRoot * option string.

(** C10: [Get], [Create] and [Delete] return nil in every component and
    leave the service, and with it the client and its transport, as they
    were; [List] is the one operation that goes through the pipeline: when
    its request is built and the guard lets it through, the request is put
    on the wire. *)
Theorem TagsServiceOp_stubs (s : TagsServiceOp) (now : time.Clock)
    (ctx : http.Context) (name : string) :
  TagsServiceOp_Get s now ctx name = Returns (s, (None, None, None))
  /\ TagsServiceOp_Create s now ctx name = Returns (s, (None, None, None))
  /\ TagsServiceOp_Delete s now ctx name = Returns (s, (None, None))
  /\ forall (opt : option ListOptions) (path : string) (req : http.Request.t),
       addOptions tagsBasePath opt = Ok path ->
       NewRequest (opClient s) ctx http.MethodGet path None
         = Returns (Some req, None) ->
       checkRateLimitBeforeDo (opClient s) now req = None ->
       exists s' tags resp err,
         TagsServiceOp_List addOptions decodeTagsRoot s now ctx opt
           = Returns (s', (tags, Some resp, err))
         /\ http.Client.sent (Client.client (opClient s'))
            = (http.Client.sent (Client.client (opClient s))
               ++ [http.Request.WithContext req ctx])%list.
Proof.
  repeat (split; [reflexivity|]).
  intros opt path req Hopt Hreq Hguard.
  unfold TagsServiceOp_List. rewrite Hopt, Hreq.
  pose proof (Do_exchange decodeTagsRoot (opClient s) now ctx req
                (mkTagsRoot [] None None) Hguard) as Hsent.
  cbv zeta in Hsent.
  destruct (Do decodeTagsRoot (opClient s) now ctx req (mkTagsRoot [] None None))
    as [[c root'] [resp err]].
  cbn [fst] in Hsent. subst c.
  destruct err as [e|]; do 4 eexists; split; reflexivity.
Qed.

End TagsService.

(** *** More on the request builder *)

Section BuilderCases.
Context {L : GoLib}.

(** [http.NewRequest] returns a request or an error, never both, never
    neither. *)
Lemma http_NewRequest_shape (method u : string) (body : option string) :
  (exists req, http.NewRequest method u body = (Some req, None))
  \/ (exists e, http.NewRequest method u body = (None, Some e)).
Proof.
  unfold http.NewRequest.
  destruct (negb (http.validMethod _)); [right; eauto|].
  destruct (url_Parse u) as [u'|e]; [left|right; eauto].
  destruct body as [data|]; [|eauto].
  destruct (String.length data =? 0)%nat; eauto.
Qed.

(** What a request of [http.NewRequest] is made of. *)
Lemma http_NewRequest_inv (method u : string) (body : option string)
    (req : http.Request.t) (err : option string) :
  method <> "" ->
  http.NewRequest method u body = (Some req, err) ->
  http.Request.ctx req = http.Background
  /\ http.Request.Method req = method
  /\ http.Request.Header req = http.Header.make
  /\ match body with
     | None => http.Request.Body req = http.nilBody
               /\ http.Request.ContentLength req = 0
     | Some data =>
         if (String.length data =? 0)%nat
         then http.Request.Body req = http.NoBody
              /\ http.Request.ContentLength req = 0
         else http.Request.Body req = http.bufBody data
              /\ http.Request.ContentLength req = Z.of_nat (String.length data)
     end.
Proof.
  intros Hne. unfold http.NewRequest.
  apply String.eqb_neq in Hne. rewrite Hne.
  destruct (negb (http.validMethod method)); [discriminate|].
  destruct (url_Parse u) as [u'|e]; [|discriminate].
  destruct body as [data|].
  - destruct (String.length data =? 0)%nat; intros Heq;
      injection Heq as <- _; repeat split.
  - intros Heq. injection Heq as <- _. repeat split.
Qed.

Lemma switchMethod_post (u : string) (body : option Value) :
  switchMethod http.MethodPost u body =
  match match body with
        | Some v => json_Encode v
        | None => Ok ""
        end with
  | Err e => inl (AnError e)
  | Ok data =>
      match http.NewRequest http.MethodPost u (Some data) with
      | (_, Some e) => inl (AnError e)
      | (None, None) => inr None
      | (Some req, None) =>
          inr (Some (http.Request.setHeader req "Content-Type" mediaType))
      end
  end.
Proof. reflexivity. Qed.

(** The switch leaves [req] nil for no method that a [case] names. *)
Lemma switchMethod_nil (method u : string) (body : option Value) :
  switchMethod method u body = inr None ->
  method <> http.MethodGet /\ method <> http.MethodHead
  /\ method <> http.MethodOptions /\ method <> http.MethodPost.
Proof.
  intros Hnil.
  assert (Hretr : ~ (method = http.MethodGet \/ method = http.MethodHead
                     \/ method = http.MethodOptions)).
  { intros Hm. rewrite (switchMethod_retrieval method u body Hm) in Hnil.
    destruct (http_NewRequest_shape method u None) as [[req Hr]|[e Hr]];
      rewrite Hr in Hnil; discriminate. }
  assert (Hpost : method <> http.MethodPost).
  { intros ->. rewrite switchMethod_post in Hnil.
    destruct (match body with Some v => json_Encode v | None => Ok "" end)
      as [data|e]; [|discriminate].
    destruct (http_NewRequest_shape http.MethodPost u (Some data))
      as [[req Hr]|[e Hr]]; rewrite Hr in Hnil; discriminate. }
  repeat split; try assumption; intros Hm; apply Hretr; auto.
Qed.

(** X2: whatever [NewRequest] returns, exactly one of the request and the
    error is nil. *)
Theorem NewRequest_request_or_error (c : Client.t) (ctx : http.Context)
    (method urlStr : string) (body : option Value)
    (req : option http.Request.t) (err : option error) :
  NewRequest c ctx method urlStr body = Returns (req, err) ->
  (req = None /\ err <> None) \/ (req <> None /\ err = None).
Proof.
  unfold NewRequest. intros Hret.
  destruct (resolve c urlStr) as [[u|e]|]; [| |discriminate].
  - destruct (switchMethod method u body) as [e|[r|]]; try discriminate;
      injection Hret as <- <-; [left|right]; split; congruence.
  - injection Hret as <- <-. left. split; congruence.
Qed.

(** X3: on a client with a base URL, [NewRequest] panics exactly when the
    path resolves and the method is none of GET, HEAD, OPTIONS and POST. *)
Theorem NewRequest_panics_iff (c : Client.t) (ctx : http.Context)
    (method urlStr : string) (body : option Value) (base : string) :
  Client.BaseURL c = Some base ->
  (exists msg, NewRequest c ctx method urlStr body = Panics msg)
  <-> ((exists u, URL_Parse base urlStr = Ok u)
       /\ method <> http.MethodGet /\ method <> http.MethodHead
       /\ method <> http.MethodOptions /\ method <> http.MethodPost).
Proof.
  intros Hbase. unfold NewRequest, resolve. rewrite Hbase. split.
  - intros [msg Hp].
    destruct (URL_Parse base urlStr) as [u|e]; [|discriminate].
    split; [eauto|].
    destruct (switchMethod method u body) as [e|[r|]] eqn:Hsw; try discriminate.
    exact (switchMethod_nil method u body Hsw).
  - intros [[u Hu] [Hg [Hh [Ho Hp]]]].
    rewrite Hu, (switchMethod_default method u body Hg Hh Ho Hp). eauto.
Qed.

(** X4: the errors of [NewRequest] come in the order of the code.  A path
    that does not resolve gives the error of the resolution for every method
    and body: nothing is encoded and no method panics.  With a path that
    resolves, POST with a body that does not encode gives the error of the
    encoder, whether or not the URL would have parsed; and a URL that
    [http.NewRequest] cannot parse gives that error, for GET, HEAD, OPTIONS
    and for POST once its body is encoded. *)
Theorem NewRequest_errors (c : Client.t) (ctx : http.Context)
    (urlStr base : string) :
  Client.BaseURL c = Some base ->
  (forall (e method : string) (body : option Value),
      URL_Parse base urlStr = Err e ->
      NewRequest c ctx method urlStr body = Returns (None, Some (AnError e)))
  /\ (forall (u e : string) (v : Value),
         URL_Parse base urlStr = Ok u ->
         json_Marshal v = Err e ->
         NewRequest c ctx http.MethodPost urlStr (Some v)
         = Returns (None, Some (AnError e)))
  /\ (forall (u e method : string) (body : option Value),
         URL_Parse base urlStr = Ok u ->
         url_Parse u = Err e ->
         method = http.MethodGet \/ method = http.MethodHead
         \/ method = http.MethodOptions
         \/ (method = http.MethodPost
             /\ match body with
                | Some v => exists data, json_Marshal v = Ok data
                | None => True
                end) ->
         NewRequest c ctx method urlStr body = Returns (None, Some (AnError e))).
Proof.
  intros Hbase. split; [|split].
  - intros e method body Hres. unfold NewRequest, resolve. rewrite Hbase, Hres.
    reflexivity.
  - intros u e v Hres Henc. unfold NewRequest, resolve.
    rewrite Hbase, Hres, switchMethod_post. unfold json_Encode.
    rewrite Henc. reflexivity.
  - intros u e method body Hres Hparse Hm. unfold NewRequest, resolve.
    rewrite Hbase, Hres.
    assert (Hnew : forall m b, m <> "" -> http.validMethod m = true ->
                     http.NewRequest m u b = (None, Some e)).
    { intros m b Hne Hvalid. unfold http.NewRequest.
      apply String.eqb_neq in Hne. rewrite Hne, Hvalid, Hparse. reflexivity. }
    destruct Hm as [Hm|[Hm|[Hm|[Hm Hbody]]]].
    + rewrite (switchMethod_retrieval method u body (or_introl Hm)).
      subst method. rewrite Hnew; [reflexivity|discriminate|reflexivity].
    + rewrite (switchMethod_retrieval method u body (or_intror (or_introl Hm))).
      subst method. rewrite Hnew; [reflexivity|discriminate|reflexivity].
    + rewrite (switchMethod_retrieval method u body (or_intror (or_intror Hm))).
      subst method. rewrite Hnew; [reflexivity|discriminate|reflexivity].
    + subst method. rewrite switchMethod_post.
      destruct body as [v|].
      * destruct Hbody as [data Hdata]. unfold json_Encode. rewrite Hdata.
        rewrite Hnew; [reflexivity|discriminate|reflexivity].
      * rewrite Hnew; [reflexivity|discriminate|reflexivity].
Qed.

(** X5: POST without a body sends the empty buffer: the request carries
    [http.NoBody] and a zero length, and is still labelled as JSON. *)
Theorem NewRequest_post_nil_body (c : Client.t) (ctx : http.Context)
    (urlStr base u u' : string) :
  Client.BaseURL c = Some base ->
  URL_Parse base urlStr = Ok u ->
  url_Parse u = Ok u' ->
  exists req : http.Request.t,
    NewRequest c ctx http.MethodPost urlStr None = Returns (Some req, None)
    /\ http.Request.Body req = http.NoBody
    /\ http.Request.ContentLength req = 0
    /\ http.Header.Get (http.Request.Header req) "Content-Type" = mediaType
    /\ http.Request.URL req = u'.
Proof.
  intros Hbase Hres Hparse. eexists. split.
  - unfold NewRequest, resolve. rewrite Hbase, Hres, switchMethod_post.
    rewrite (http_NewRequest_ok http.MethodPost u u' (Some ""));
      [reflexivity|discriminate|reflexivity|exact Hparse].
  - split; [reflexivity|]. split; [reflexivity|]. split; [|reflexivity].
    cbn [http.Request.setHeader http.Request.Header].
    rewrite !Get_Set_other by (vm_compute; discriminate). apply Get_Set.
Qed.

(** X6: a request that [NewRequest] returns has the method that was asked
    for and the background context, whatever context was passed, and its
    [ContentLength] is the length of its body. *)
Theorem NewRequest_request_line (c : Client.t) (ctx : http.Context)
    (method urlStr : string) (body : option Value) (req : http.Request.t)
    (err : option error) :
  NewRequest c ctx method urlStr body = Returns (Some req, err) ->
  http.Request.Method req = method
  /\ http.Request.ctx req = http.Background
  /\ match http.Request.Body req with
     | http.bufBody data =>
         http.Request.ContentLength req = Z.of_nat (String.length data)
         /\ data <> "" /\ method = http.MethodPost
     | _ => http.Request.ContentLength req = 0
     end.
Proof.
  unfold NewRequest. intros Hret.
  destruct (resolve c urlStr) as [[u|e]|]; try discriminate.
  destruct (switchMethod method u body) as [e|[r|]] eqn:Hsw; try discriminate.
  injection Hret as <- _.
  cbn [http.Request.setHeader http.Request.Method http.Request.ctx
       http.Request.Body http.Request.ContentLength].
  destruct (String.eqb_spec method http.MethodPost) as [->|Hnp].
  - rewrite switchMethod_post in Hsw.
    destruct (match body with Some v => json_Encode v | None => Ok "" end)
      as [data|e]; [|discriminate].
    destruct (http.NewRequest http.MethodPost u (Some data))
      as [[r0|] [e|]] eqn:Hnew; try discriminate.
    injection Hsw as <-.
    cbn [http.Request.setHeader http.Request.Method http.Request.ctx
         http.Request.Body http.Request.ContentLength].
    destruct (http_NewRequest_inv http.MethodPost u (Some data) r0 None
                ltac:(discriminate) Hnew) as [Hc [Hm [_ Hb]]].
    split; [exact Hm|]. split; [exact Hc|].
    destruct (String.length data =? 0)%nat eqn:Hlen; destruct Hb as [-> ->].
    + reflexivity.
    + split; [reflexivity|]. split; [|reflexivity].
      intros ->. discriminate Hlen.
  - assert (Hm : method = http.MethodGet \/ method = http.MethodHead
                 \/ method = http.MethodOptions).
    { destruct (String.eqb_spec method http.MethodGet); [auto|].
      destruct (String.eqb_spec method http.MethodHead); [auto|].
      destruct (String.eqb_spec method http.MethodOptions); [auto|].
      rewrite switchMethod_default in Hsw by assumption. discriminate. }
    rewrite (switchMethod_retrieval method u body Hm) in Hsw.
    destruct (http.NewRequest method u None) as [r0 [e|]] eqn:Hnew;
      [discriminate|].
    injection Hsw as ->.
    assert (Hne : method <> "")
      by (destruct Hm as [-> | [-> | ->]]; discriminate).
    destruct (http_NewRequest_inv method u None r None Hne Hnew)
      as [Hc [Hmeth [_ [Hb Hl]]]].
    rewrite Hb. repeat split; assumption.
Qed.

End BuilderCases.

(** *** More on the rate and on [Do] *)

Section PipelineCases.
Context `{GoLib} `{GoJSON}.

(** A string with a syntax error converts to zero. *)
Lemma ParseInt_syntax_zero (s : string) (n : Z) :
  strconv.ParseInt s = (n, Some strconv.ErrSyntax) -> n = 0.
Proof.
  unfold strconv.ParseInt. destruct s as [|c rest]; [congruence|].
  cbv zeta. destruct (strconv.ParseUint _) as [un [[|]|]];
    repeat match goal with
           | |- context [if ?b then _ else _] => destruct b
           end; congruence.
Qed.

Lemma Atoi_syntax_zero (s : string) (n : Z) :
  strconv.Atoi s = (n, Some strconv.ErrSyntax) -> n = 0.
Proof.
  unfold strconv.Atoi.
  destruct ((0 <? Z.of_nat (String.length s))
            && (Z.of_nat (String.length s) <? 19)).
  - destruct s as [|c rest]; [congruence|]. cbv zeta.
    destruct (_ && (_ =? 0)%nat); [congruence|].
    destruct (strconv.Atoi_digits _ 0); congruence.
  - apply ParseInt_syntax_zero.
Qed.

(** A number out of range converts to the end of the range on its side. *)
Lemma Atoi_range_saturates (s : string) (n : Z) :
  strconv.Atoi s = (n, Some strconv.ErrRange) ->
  n = 2 ^ 63 - 1 \/ n = - 2 ^ 63.
Proof.
  unfold strconv.Atoi.
  destruct ((0 <? Z.of_nat (String.length s))
            && (Z.of_nat (String.length s) <? 19)).
  - destruct s as [|c rest]; [congruence|]. cbv zeta.
    destruct (_ && (_ =? 0)%nat); [congruence|].
    destruct (strconv.Atoi_digits _ 0); congruence.
  - unfold strconv.ParseInt. destruct s as [|c rest]; [congruence|].
    cbv zeta. destruct (strconv.ParseUint _) as [un [[|]|]];
      repeat match goal with
             | |- context [if ?b then _ else _] => destruct b
             end;
      intros Heq; injection Heq as <-; try discriminate; auto.
Qed.

(** The three fields of the rate of a fresh response. *)
Lemma newResponse_Rate (r : http.Response.t) :
  let h := http.Response.Header r in
  let limit := http.Header.Get h headerRateLimit in
  let remaining := http.Header.Get h headerRateRemaining in
  let reset := http.Header.Get h headerRateReset in
  Response.Rate (newResponse r) =
  Rate.mk (if String.eqb limit "" then 0 else (strconv.Atoi limit).1)
          (if String.eqb remaining "" then 0 else (strconv.Atoi remaining).1)
          (if String.eqb reset "" then mkTimestamp time.zero
           else if (strconv.ParseInt reset).1 =? 0 then mkTimestamp time.zero
                else mkTimestamp (time.Unix (strconv.ParseInt reset).1 0)).
Proof.
  unfold newResponse, parseRate. cbn [Response.Response Response.Rate].
  set (h := http.Response.Header r). cbv zeta.
  destruct (String.eqb (http.Header.Get h headerRateLimit) "");
    destruct (String.eqb (http.Header.Get h headerRateRemaining) "");
    destruct (String.eqb (http.Header.Get h headerRateReset) "");
    cbn; try reflexivity;
    destruct (fst (strconv.ParseInt (http.Header.Get h headerRateReset)) =? 0);
    reflexivity.
Qed.

(** What [Do] returns when the guard holds the request back. *)
Lemma Do_held_back {T : Type} (decode : string -> T -> T * option string)
    (c : Client.t) (now : time.Clock) (ctx : http.Context)
    (req : http.Request.t) (v : T) (err : RateLimitError.t) :
  checkRateLimitBeforeDo c now req = Some err ->
  Do decode c now ctx req v =
  (c, v, (Response.mk (RateLimitError.Response err) (RateLimitError.Rate err)
                      None None,
          Some (IsRateLimitError err))).
Proof. intros Hguard. unfold Do. rewrite Hguard. reflexivity. Qed.

(** When the guard holds a request back, and what its error is made of. *)
Lemma checkRateLimitBeforeDo_cases (c : Client.t) (now : time.Clock)
    (req : http.Request.t) :
  let rate := Client.Rate c in
  if negb (time.IsZero (Time (Rate.Reset rate)))
     && (Rate.Remaining rate =? 0)
     && time.Before (time.Now now) (Time (Rate.Reset rate))
  then exists err,
         checkRateLimitBeforeDo c now req = Some err
         /\ RateLimitError.Rate err = rate
         /\ http.Response.StatusCode (RateLimitError.Response err) = 403
  else checkRateLimitBeforeDo c now req = None.
Proof.
  cbv zeta. unfold checkRateLimitBeforeDo.
  destruct (negb _ && _ && _); [|reflexivity].
  eexists. repeat split.
Qed.

(** X7: a rate header that is no number leaves its field at zero; a number
    too large or too small for 64 bits does not: the field takes the end of
    the range on that side. *)
Theorem newResponse_unparsable (r : http.Response.t) :
  let h := http.Response.Header r in
  let rate := Response.Rate (newResponse r) in
  ((strconv.Atoi (http.Header.Get h headerRateRemaining)).2
     = Some strconv.ErrSyntax -> Rate.Remaining rate = 0)
  /\ ((strconv.Atoi (http.Header.Get h headerRateLimit)).2
        = Some strconv.ErrSyntax -> Rate.Limit rate = 0)
  /\ ((strconv.Atoi (http.Header.Get h headerRateRemaining)).2
        = Some strconv.ErrRange ->
      Rate.Remaining rate = 2 ^ 63 - 1 \/ Rate.Remaining rate = - 2 ^ 63)
  /\ ((strconv.Atoi (http.Header.Get h headerRateLimit)).2
        = Some strconv.ErrRange ->
      Rate.Limit rate = 2 ^ 63 - 1 \/ Rate.Limit rate = - 2 ^ 63).
Proof.
  cbv zeta. rewrite newResponse_Rate. cbv zeta. cbn [Rate.Remaining Rate.Limit].
  set (rem := http.Header.Get _ headerRateRemaining).
  set (lim := http.Header.Get _ headerRateLimit).
  repeat split.
  - intros Herr. destruct (String.eqb rem ""); [reflexivity|].
    destruct (strconv.Atoi rem) as [n e] eqn:Hconv. cbn in *. subst e.
    exact (Atoi_syntax_zero _ _ Hconv).
  - intros Herr. destruct (String.eqb lim ""); [reflexivity|].
    destruct (strconv.Atoi lim) as [n e] eqn:Hconv. cbn in *. subst e.
    exact (Atoi_syntax_zero _ _ Hconv).
  - intros Herr. destruct (String.eqb_spec rem "") as [Hempty|_].
    + rewrite Hempty in Herr. discriminate Herr.
    + destruct (strconv.Atoi rem) as [n e] eqn:Hconv. cbn in *. subst e.
      exact (Atoi_range_saturates _ _ Hconv).
  - intros Herr. destruct (String.eqb_spec lim "") as [Hempty|_].
    + rewrite Hempty in Herr. discriminate Herr.
    + destruct (strconv.Atoi lim) as [n e] eqn:Hconv. cbn in *. subst e.
      exact (Atoi_range_saturates _ _ Hconv).
Qed.

(** X8: after an exchange whose response has no usable RateLimit-Reset (the
    header is absent, is no number, or is 0) the reset is unset, and the
    guard holds back no later request, at any reading of the clock, whatever
    the response said about the remaining quota. *)
Theorem Do_without_reset_opens_guard {T : Type}
    (decode : string -> T -> T * option string)
    (c : Client.t) (now : time.Clock) (ctx : http.Context)
    (req : http.Request.t) (v : T) :
  checkRateLimitBeforeDo c now req = None ->
  let resp := http.Client.RoundTrip (Client.client c)
                (http.Request.WithContext req ctx) in
  (strconv.ParseInt (http.Header.Get (http.Response.Header resp)
                                     headerRateReset)).1 = 0 ->
  let c' := (Do decode c now ctx req v).1.1 in
  Rate.Reset (Client.Rate c') = mkTimestamp time.zero
  /\ forall (later : time.Clock) (next : http.Request.t),
       checkRateLimitBeforeDo c' later next = None.
Proof.
  intros Hguard resp Hreset c'.
  assert (Hunset : Rate.Reset (Client.Rate c') = mkTimestamp time.zero).
  { subst c'. rewrite (Do_exchange decode c now ctx req v Hguard).
    cbn [Client.setRate Client.Rate]. fold resp.
    rewrite newResponse_Rate. cbv zeta. cbn [Rate.Reset].
    rewrite Hreset. destruct (String.eqb _ ""); reflexivity. }
  split; [exact Hunset|].
  intros later next. apply checkRateLimitBeforeDo_unset.
  rewrite Hunset. reflexivity.
Qed.

(** X9: after an exchange whose response reports RateLimit-Remaining 0
    and a RateLimit-Reset of [v] seconds past the epoch, a call made while
    the clock is before that instant is held back: it returns a
    [RateLimitError] with the cached rate and puts nothing on the wire. *)
Theorem Do_then_held_back {T : Type}
    (decode : string -> T -> T * option string)
    (c : Client.t) (now later : time.Clock) (ctx ctx' : http.Context)
    (req next : http.Request.t) (v w : T) (secs : Z) :
  checkRateLimitBeforeDo c now req = None ->
  let resp := http.Client.RoundTrip (Client.client c)
                (http.Request.WithContext req ctx) in
  http.Header.Get (http.Response.Header resp) headerRateRemaining = "0" ->
  (strconv.ParseInt (http.Header.Get (http.Response.Header resp)
                                     headerRateReset)).1 = secs ->
  secs <> 0 ->
  time.Before (time.Now later) (time.Unix secs 0) = true ->
  let c' := (Do decode c now ctx req v).1.1 in
  exists err : RateLimitError.t,
    Do decode c' later ctx' next w =
      (c', w, (Response.mk (RateLimitError.Response err) (Client.Rate c')
                           None None,
               Some (IsRateLimitError err)))
    /\ Rate.Remaining (Client.Rate c') = 0
    /\ Rate.Reset (Client.Rate c') = mkTimestamp (time.Unix secs 0)
    /\ http.Response.StatusCode (RateLimitError.Response err) = 403.
Proof.
  intros Hguard resp Hrem Hreset Hsecs Hbefore c'.
  assert (Hrate : Rate.Remaining (Client.Rate c') = 0
                  /\ Rate.Reset (Client.Rate c') = mkTimestamp (time.Unix secs 0)).
  { subst c'. rewrite (Do_exchange decode c now ctx req v Hguard).
    cbn [Client.setRate Client.Rate]. fold resp.
    rewrite newResponse_Rate. cbv zeta. cbn [Rate.Remaining Rate.Reset].
    rewrite Hrem, Hreset. split; [reflexivity|].
    destruct (String.eqb_spec
                (http.Header.Get (http.Response.Header resp) headerRateReset) "")
      as [Hempty|_].
    - rewrite Hempty in Hreset. cbn in Hreset. congruence.
    - apply Z.eqb_neq in Hsecs. rewrite Hsecs. reflexivity. }
  destruct Hrate as [Hzero Hset].
  pose proof (checkRateLimitBeforeDo_cases c' later next) as Hcases.
  cbv zeta in Hcases. rewrite Hzero, Hset in Hcases. cbn [Time] in Hcases.
  rewrite Hbefore, (Before_Now_not_zero _ _ Hbefore) in Hcases.
  cbn [negb andb Z.eqb] in Hcases.
  destruct Hcases as [err [Hheld [Herr Hcode]]].
  exists err. rewrite (Do_held_back decode c' later ctx' next w err Hheld).
  rewrite Herr. repeat split; assumption.
Qed.

(** X10: [Do] changes nothing of the client but the cached rate and the
    record of what went on the wire: the base URL, the user agent, the
    extra headers and the transport stay as they were, on every path. *)
Theorem Do_frame {T : Type} (decode : string -> T -> T * option string)
    (c : Client.t) (now : time.Clock) (ctx : http.Context)
    (req : http.Request.t) (v : T) :
  let c' := (Do decode c now ctx req v).1.1 in
  Client.BaseURL c' = Client.BaseURL c
  /\ Client.UserAgent c' = Client.UserAgent c
  /\ Client.headers c' = Client.headers c
  /\ http.Client.RoundTrip (Client.client c')
     = http.Client.RoundTrip (Client.client c).
Proof.
  cbv zeta. destruct (checkRateLimitBeforeDo c now req) as [err|] eqn:Hguard.
  - rewrite (Do_held_back decode c now ctx req v err Hguard). repeat split.
  - rewrite (Do_exchange decode c now ctx req v Hguard). repeat split.
Qed.

(** What the error of the guard is made of. *)
Lemma checkRateLimitBeforeDo_error (c : Client.t) (now : time.Clock)
    (req : http.Request.t) (err : RateLimitError.t) :
  checkRateLimitBeforeDo c now req = Some err ->
  RateLimitError.Rate err = Client.Rate c
  /\ http.Response.StatusCode (RateLimitError.Response err) = 403
  /\ http.Response.Request (RateLimitError.Response err) = Some req.
Proof.
  unfold checkRateLimitBeforeDo. destruct (negb _ && _ && _); [|discriminate].
  intros Heq. injection Heq as <-. repeat split.
Qed.

(** X11: a call of [Do] puts its request on the wire once, with the context
    of the call, or not at all.  It does not when the reset is set, nothing
    remains and the clock is before the reset; it does in every other case:
    with requests remaining, with the reset unset, and from the instant of
    the reset on. *)
Theorem Do_sends_once_or_not {T : Type}
    (decode : string -> T -> T * option string)
    (c : Client.t) (now : time.Clock) (ctx : http.Context)
    (req : http.Request.t) (v : T) :
  let rate := Client.Rate c in
  let held := time.IsZero (Time (Rate.Reset rate)) = false
              /\ Rate.Remaining rate = 0
              /\ time.sinceZero (time.Now now)
                 < time.sinceZero (Time (Rate.Reset rate)) in
  let sent' := http.Client.sent (Client.client (Do decode c now ctx req v).1.1) in
  (held -> sent' = http.Client.sent (Client.client c))
  /\ (~ held ->
      sent' = (http.Client.sent (Client.client c)
               ++ [http.Request.WithContext req ctx])%list).
Proof.
  cbv zeta. pose proof (checkRateLimitBeforeDo_cases c now req) as Hcases.
  cbv zeta in Hcases.
  destruct (negb (time.IsZero (Time (Rate.Reset (Client.Rate c))))
            && (Rate.Remaining (Client.Rate c) =? 0)
            && time.Before (time.Now now) (Time (Rate.Reset (Client.Rate c))))
    eqn:Hcond.
  - destruct Hcases as [err [Hheld _]]. split.
    + intros _. rewrite (Do_held_back decode c now ctx req v err Hheld).
      reflexivity.
    + intros Hnot. exfalso. apply Hnot.
      apply andb_true_iff in Hcond as [Hcond Hlt].
      apply andb_true_iff in Hcond as [Hset Hzero].
      apply negb_true_iff in Hset. apply Z.eqb_eq in Hzero.
      unfold time.Before in Hlt. apply Z.ltb_lt in Hlt. auto.
  - split.
    + intros [Hset [Hzero Hlt]]. exfalso.
      apply Z.ltb_lt in Hlt. unfold time.Before in Hcond.
      rewrite Hset, Hzero, Hlt in Hcond. discriminate Hcond.
    + intros _. rewrite (Do_exchange decode c now ctx req v Hcases).
      reflexivity.
Qed.

(** X12: on every path the rate in the response that [Do] returns is the
    rate the client has cached when the call ends. *)
Theorem Do_response_rate_is_cached {T : Type}
    (decode : string -> T -> T * option string)
    (c : Client.t) (now : time.Clock) (ctx : http.Context)
    (req : http.Request.t) (v : T) :
  Response.Rate (Do decode c now ctx req v).2.1
  = Client.Rate (Do decode c now ctx req v).1.1.
Proof.
  destruct (checkRateLimitBeforeDo c now req) as [err|] eqn:Hguard.
  - rewrite (Do_held_back decode c now ctx req v err Hguard).
    cbn [fst snd Response.Rate].
    exact (proj1 (checkRateLimitBeforeDo_error c now req err Hguard)).
  - unfold Do. rewrite Hguard. unfold http.Client.Do.
    destruct (CheckResponse _) as [resp' [e|]]; [reflexivity|].
    destruct (decodeBody _ _ _) as [[resp'' v'] derr]. reflexivity.
Qed.

(** X13: when the call is held back, or the response has a status outside
    200..299, [Do] returns an error and leaves the target as it was. *)
Theorem Do_error_leaves_target {T : Type}
    (decode : string -> T -> T * option string)
    (c : Client.t) (now : time.Clock) (ctx : http.Context)
    (req : http.Request.t) (v : T) :
  let resp := http.Client.RoundTrip (Client.client c)
                (http.Request.WithContext req ctx) in
  checkRateLimitBeforeDo c now req <> None
  \/ ~ (200 <= http.Response.StatusCode resp <= 299) ->
  (Do decode c now ctx req v).1.2 = v
  /\ (Do decode c now ctx req v).2.2 <> None.
Proof.
  intros resp Hcase.
  destruct (checkRateLimitBeforeDo c now req) as [err|] eqn:Hguard.
  - rewrite (Do_held_back decode c now ctx req v err Hguard).
    split; [reflexivity|discriminate].
  - destruct Hcase as [Hheld|Hout]; [congruence|].
    unfold Do. rewrite Hguard. unfold http.Client.Do. fold resp.
    rewrite CheckResponse_unfold.
    assert (Hrange : (200 <=? http.Response.StatusCode resp)
                     && (http.Response.StatusCode resp <=? 299) = false).
    { apply andb_false_iff.
      destruct (Z.leb_spec 200 (http.Response.StatusCode resp));
        destruct (Z.leb_spec (http.Response.StatusCode resp) 299); auto.
      exfalso. apply Hout. lia. }
    rewrite Hrange. destruct ((_ =? 403) && _); split;
      (reflexivity || discriminate).
Qed.

(** X14: a client fresh from [NewClient] (or [New], which adds no error)
    has the zero rate, so its first call always reaches the transport. *)
Theorem NewClient_first_call_sends {T : Type}
    (decode : string -> T -> T * option string)
    (httpClient : http.Client.t) (now : time.Clock) (ctx : http.Context)
    (req : http.Request.t) (v : T) :
  New httpClient = (NewClient httpClient, None)
  /\ Client.Rate (NewClient httpClient) = Rate.zero
  /\ Client.UserAgent (NewClient httpClient) = "godo/1.60.0"
  /\ http.Client.sent
       (Client.client (Do decode (NewClient httpClient) now ctx req v).1.1)
     = (http.Client.sent httpClient ++ [http.Request.WithContext req ctx])%list.
Proof.
  repeat (split; [reflexivity|]).
  rewrite (Do_exchange decode (NewClient httpClient) now ctx req v
             (checkRateLimitBeforeDo_unset (NewClient httpClient) now req eq_refl)).
  reflexivity.
Qed.

End PipelineCases.

(** *** More on the classifier *)

Section ClassifierCases.
Context `{GoLib} `{GoJSON}.

(** X15: the listing reports an error exactly for the statuses outside
    200..299; 1xx and 3xx are errors like 4xx and 5xx, and 202 is none. *)
Theorem CheckResponse0_error_iff (r : http.Response.t) :
  (CheckResponse0 r).2 = None <-> 200 <= http.Response.StatusCode r <= 299.
Proof.
  rewrite CheckResponse0_unfold, <- success_range.
  destruct ((200 <=? _) && (_ <=? 299)); split;
    (reflexivity || discriminate ||
     (intros _; destruct (json.kept _); discriminate)).
Qed.

(** X18: after the final listing has classified an error the body can be
    read again, in full and without an error: the bytes that were read are
    put back, and a failure that ended the first reading is not kept. *)
Theorem CheckResponse_body_reread (r : http.Response.t) :
  ~ (200 <= http.Response.StatusCode r <= 299) ->
  (ioutil.ReadAll (http.Response.Body (CheckResponse r).1)).2
  = (ioutil.pending (http.Response.Body r), None).
Proof.
  intros Hout.
  rewrite CheckResponse_unfold, (outside_success_range _ Hout).
  destruct ((_ =? 403) && _); reflexivity.
Qed.

(** *** The deferred reading *)

Lemma skip_length (n : nat) (s : string) :
  String.length (io.skip n s) = (String.length s - n)%nat.
Proof.
  revert s. induction n as [|n IH]; intros s.
  - cbn. lia.
  - destruct s as [|a s]; cbn; [reflexivity|apply IH].
Qed.

Lemma skip_all (n : nat) (s : string) :
  (String.length s <= n)%nat -> io.skip n s = "".
Proof.
  intros Hle. pose proof (skip_length n s) as Hlen.
  destruct (io.skip n s); [reflexivity|]. cbn in Hlen. lia.
Qed.

Lemma maxBodySlurpSize_value : Z.to_nat maxBodySlurpSize = 2048%nat.
Proof. reflexivity. Qed.

(** X22: when the declared length is unknown (-1) or at most 2048 and no
    more than 2048 bytes are pending, the deferred function leaves the body
    read to its end, as the reuse of the connection needs. *)
Theorem drainBody_empties (contentLength : Z) (body : ioutil.ReadCloser) :
  contentLength = -1 \/ contentLength <= 2048 ->
  (String.length (ioutil.pending body) <= 2048)%nat ->
  ioutil.pending (drainBody contentLength body) = ""
  /\ ioutil.failure (drainBody contentLength body) = ioutil.failure body.
Proof.
  intros Hdecl Hlen. unfold drainBody.
  assert (Hcond : (contentLength =? -1) || (contentLength <=? maxBodySlurpSize)
                  = true).
  { apply orb_true_iff. destruct Hdecl as [->|Hle]; [left; reflexivity|].
    right. apply Z.leb_le. exact Hle. }
  rewrite Hcond. unfold io.CopyN_Discard. cbn [ioutil.pending ioutil.failure].
  rewrite maxBodySlurpSize_value. split; [|reflexivity].
  apply skip_all. exact Hlen.
Qed.

(** X23: the deferred function reads 2048 bytes at the most.  With a
    declared length above 2048 it reads nothing; otherwise a body with more
    than 2048 bytes pending keeps all but the first 2048. *)
Theorem drainBody_reads_at_most (contentLength : Z) (body : ioutil.ReadCloser) :
  let left := String.length (ioutil.pending (drainBody contentLength body)) in
  let pending := String.length (ioutil.pending body) in
  (pending - 2048 <= left <= pending)%nat
  /\ (2048 < contentLength -> drainBody contentLength body = body)
  /\ (contentLength = -1 \/ contentLength <= 2048 ->
      left = (pending - 2048)%nat).
Proof.
  cbv zeta. unfold drainBody.
  destruct (Z.eqb_spec contentLength (-1)) as [Hunk|Hknown];
    destruct (Z.leb_spec contentLength maxBodySlurpSize) as [Hle|Hgt];
    change maxBodySlurpSize with 2048 in *;
    cbn [orb]; unfold io.CopyN_Discard; cbn [ioutil.pending];
    change (Z.to_nat 2048) with (Z.to_nat maxBodySlurpSize);
    rewrite ?maxBodySlurpSize_value, ?skip_length;
    (split; [lia|split; [intros; lia || reflexivity|intros; lia]]).
Qed.


End ClassifierCases.

(** *** More on the tags service *)

Section TagsCases.
Context `{GoLib} `{GoJSON}.
Variable addOptions : string -> option ListOptions -> result string.
Variable decodeTagsRoot : string -> tagsRoot -> tagsRoot * option string.

(** With a base URL, [NewRequest] for GET returns: a request or an error. *)
Lemma NewRequest_Get_returns (c : Client.t) (ctx : http.Context)
    (path base : string) :
  Client.BaseURL c = Some base ->
  (exists req, NewRequest c ctx http.MethodGet path None = Returns (Some req, None))
  \/ (exists e, NewRequest c ctx http.MethodGet path None = Returns (None, Some e)).
Proof.
  intros Hbase. unfold NewRequest, resolve. rewrite Hbase.
  destruct (URL_Parse base path) as [u|e]; [|right; eauto].
  rewrite (switchMethod_retrieval http.MethodGet u None (or_introl eq_refl)).
  destruct (http_NewRequest_shape http.MethodGet u None) as [[req Hr]|[e Hr]];
    rewrite Hr; [left|right]; eauto.
Qed.

(** X25: [List] returns no tags and leaves the service, the client and the
    transport as they were when the path cannot be built, when the request
    cannot be built, and when the guard holds the request back; in the last
    case it returns the response made on the spot with the error, in the
    first two no response. *)
Theorem List_without_exchange (s : TagsServiceOp) (now : time.Clock)
    (ctx : http.Context) (opt : option ListOptions) :
  (forall e, addOptions tagsBasePath opt = Err e ->
             TagsServiceOp_List addOptions decodeTagsRoot s now ctx opt
             = Returns (s, ([], None, Some (AnError e))))
  /\ (forall path e,
         addOptions tagsBasePath opt = Ok path ->
         NewRequest (opClient s) ctx http.MethodGet path None
           = Returns (None, Some e) ->
         TagsServiceOp_List addOptions decodeTagsRoot s now ctx opt
         = Returns (s, ([], None, Some e)))
  /\ (forall path req err,
         addOptions tagsBasePath opt = Ok path ->
         NewRequest (opClient s) ctx http.MethodGet path None
           = Returns (Some req, None) ->
         checkRateLimitBeforeDo (opClient s) now req = Some err ->
         TagsServiceOp_List addOptions decodeTagsRoot s now ctx opt
         = Returns
             (s, ([],
                  Some (Response.mk (RateLimitError.Response err)
                                    (Client.Rate (opClient s)) None None),
                  Some (IsRateLimitError err)))).
Proof.
  split; [|split].
  - intros e Hopt. unfold TagsServiceOp_List. rewrite Hopt. reflexivity.
  - intros path e Hopt Hreq. unfold TagsServiceOp_List.
    rewrite Hopt, Hreq. reflexivity.
  - intros path req err Hopt Hreq Hguard. unfold TagsServiceOp_List.
    rewrite Hopt, Hreq.
    rewrite (Do_held_back decodeTagsRoot (opClient s) now ctx req
               (mkTagsRoot [] None None) err Hguard).
    rewrite (proj1 (checkRateLimitBeforeDo_error _ _ _ _ Hguard)).
    destruct s. reflexivity.
Qed.

(** X27: when the server answers with a status outside 200..299, [List]
    returns no tags, the response and the error of the classifier, generic
    or rate limit.  The response returned is the one the server sent as the
    classifier leaves it, with what its body has written through the field
    [Response] and with the body put back; the request went on the wire
    and the rate of the response, parsed before the classifier ran, is
    cached, in the client and in the response returned. *)
Theorem List_error_response (s : TagsServiceOp) (now : time.Clock)
    (ctx : http.Context) (opt : option ListOptions) (path : string)
    (req : http.Request.t) :
  addOptions tagsBasePath opt = Ok path ->
  NewRequest (opClient s) ctx http.MethodGet path None
    = Returns (Some req, None) ->
  checkRateLimitBeforeDo (opClient s) now req = None ->
  let answer := http.Client.RoundTrip (Client.client (opClient s))
                  (http.Request.WithContext req ctx) in
  ~ (200 <= http.Response.StatusCode answer <= 299) ->
  exists s' resp e,
    TagsServiceOp_List addOptions decodeTagsRoot s now ctx opt
    = Returns (s', ([], Some resp, Some e))
    /\ (classify (Some e) = Generic \/ classify (Some e) = RateLimited)
    /\ Response.Response resp = restored answer
    /\ Response.Rate resp = Response.Rate (newResponse answer)
    /\ Client.Rate (opClient s') = Response.Rate (newResponse answer)
    /\ http.Client.sent (Client.client (opClient s'))
       = (http.Client.sent (Client.client (opClient s))
          ++ [http.Request.WithContext req ctx])%list.
Proof.
  intros Hopt Hreq Hguard answer Hout.
  unfold TagsServiceOp_List. rewrite Hopt, Hreq.
  unfold Do. rewrite Hguard. unfold http.Client.Do. fold answer.
  rewrite CheckResponse_unfold, (outside_success_range _ Hout).
  destruct ((_ =? 403) && _); destruct (json.kept (written answer));
    do 3 eexists;
    (split; [reflexivity|]); (split; [auto|]); repeat split.
Qed.

End TagsCases.

(** *** Concrete runs *)

Import sample.

Lemma Do_rate_limited_run :
  Rate.Remaining (Client.Rate throttled) = 0
  /\ time.Before (time.Now sample.halfPast)
                 (Time (Rate.Reset (Client.Rate throttled))) = true
  /\ exists err : RateLimitError.t,
       Do sample.decodeTagsRoot throttled sample.halfPast http.Background
          sample.getTags root =
         (throttled, root,
          (Response.mk (RateLimitError.Response err) (Client.Rate throttled)
                       None None,
           Some (IsRateLimitError err)))
       /\ RateLimitError.Rate err = Client.Rate throttled
       /\ http.Response.StatusCode (RateLimitError.Response err) = 403
       /\ http.Response.Request (RateLimitError.Response err) = Some sample.getTags
       /\ http.Client.sent
            (Client.client
               (Do sample.decodeTagsRoot throttled sample.halfPast
                   http.Background sample.getTags root).1.1) =
          http.Client.sent (Client.client throttled).
Proof.
  split; [reflexivity|]. split; [reflexivity|].
  apply (Do_rate_limited sample.decodeTagsRoot throttled sample.halfPast
           http.Background sample.getTags root); reflexivity.
Defined.

Lemma Do_zero_rate_sends_run :
  Client.Rate (NewClient (server 200 ∅ "{}")) = Rate.zero
  /\ checkRateLimitBeforeDo (NewClient (server 200 ∅ "{}")) halfPast getTags = None
  /\ http.Client.sent
       (Client.client
          (Do decodeTagsRoot (NewClient (server 200 ∅ "{}")) halfPast
              http.Background getTags root).1.1) =
     (http.Client.sent (Client.client (NewClient (server 200 ∅ "{}")))
      ++ [http.Request.WithContext getTags http.Background])%list.
Proof.
  split; [reflexivity|].
  apply (Do_zero_rate_sends decodeTagsRoot (NewClient (server 200 ∅ "{}"))
           halfPast http.Background getTags root).
  reflexivity.
Defined.

Lemma Do_caches_response_rate_run :
  checkRateLimitBeforeDo fiveLeft halfPast getTags = None
  /\ Rate.Remaining
       (Client.Rate (Do decodeTagsRoot fiveLeft halfPast http.Background
                        getTags root).1.1) = 0
  /\ checkRateLimitBeforeDo sevenReported halfPast getTags = None
  /\ Rate.Remaining
       (Client.Rate (Do decodeTagsRoot sevenReported halfPast http.Background
                        getTags root).1.1) = 7.
Proof.
  split; [reflexivity|]. split; [|split; [reflexivity|]].
  - apply (Do_caches_response_rate decodeTagsRoot fiveLeft halfPast
             http.Background getTags root); reflexivity.
  - apply (Do_caches_response_rate decodeTagsRoot sevenReported halfPast
             http.Background getTags root); reflexivity.
Defined.

(** The cached [Remaining] is not kept when the header is absent: a client
    that had five requests left has none after a response without rate
    headers. *)
Lemma cached_remaining_not_kept :
  let resp := http.Client.RoundTrip (Client.client fiveLeft)
                (http.Request.WithContext getTags http.Background) in
  let c' := (Do decodeTagsRoot fiveLeft halfPast http.Background getTags root).1.1 in
  checkRateLimitBeforeDo fiveLeft halfPast getTags = None
  /\ http.Response.Header resp
       !! textproto.CanonicalMIMEHeaderKey headerRateRemaining = None
  /\ Rate.Remaining (Client.Rate fiveLeft) = 5
  /\ Rate.Remaining (Client.Rate c') = 0
  /\ Rate.Remaining (Client.Rate c') <> Rate.Remaining (Client.Rate fiveLeft).
Proof. vm_compute. repeat split; discriminate. Qed.

Lemma CheckResponse_rate_limit_lost_run :
  http.Response.StatusCode rewritten = 403
  /\ http.Header.Get (http.Response.Header rewritten) headerRateRemaining = "0"
  /\ classify (CheckResponse rewritten).2 = Generic
  /\ http.Response.StatusCode (CheckResponse rewritten).1 = 500.
Proof.
  split; [reflexivity|]. split; [reflexivity|].
  assert (Hwrite : json.StatusCode
                     (json_Unmarshal_Response
                        (ioutil.pending (http.Response.Body rewritten))
                        (drained rewritten)) <> 403)
    by (vm_compute; discriminate).
  destruct (CheckResponse_rate_limit_lost rewritten eq_refl eq_refl eq_refl
              Hwrite) as [Hclass Hcode].
  split; [exact Hclass|]. rewrite Hcode. reflexivity.
Defined.

(** A 202 is no error to the listing, which returns the response as it
    was. *)
Lemma accepted_is_no_error :
  http.Response.StatusCode accepted = 202
  /\ CheckResponse0 accepted = (accepted, None)
  /\ classify (CheckResponse0 accepted).2 = NoError.
Proof. repeat split. Qed.

Lemma CheckResponse0_accepted_run :
  CheckResponse0 accepted = (accepted, None)
  /\ classify (CheckResponse0 accepted).2 = NoError.
Proof. exact (CheckResponse0_accepted accepted eq_refl). Defined.

Lemma CheckResponse0_generic_run :
  ~ (200 <= http.Response.StatusCode broken <= 299)
  /\ classify (CheckResponse0 broken).2 = Generic
  /\ errorMessage (CheckResponse0 broken).2 = "upstream failure"
  /\ errorMessage (CheckResponse0 cutOff).2 = "".
Proof.
  assert (Hout : ~ (200 <= http.Response.StatusCode broken <= 299))
    by (cbn; lia).
  assert (Hcut : ~ (200 <= http.Response.StatusCode cutOff <= 299))
    by (cbn; lia).
  split; [exact Hout|].
  destruct (CheckResponse0_generic broken Hout) as [Hclass [_ [_ Hraw]]].
  destruct (CheckResponse0_generic cutOff Hcut) as [_ [_ [Hempty _]]].
  split; [exact Hclass|]. split.
  - refine (Hraw "" (Some "invalid character") eq_refl _ eq_refl). discriminate.
  - apply Hempty. right. discriminate.
Defined.



Lemma NewRequest_default_case_panics_run :
  NewRequest (NewClient (server 200 ∅ "{}")) http.Background http.MethodDelete
             "v2/tags/staging" None
  = Panics nilDereference.
Proof.
  apply (NewRequest_default_case_panics (NewClient (server 200 ∅ "{}"))
           http.Background http.MethodDelete "v2/tags/staging" None
           defaultBaseURL "https://api.digitalocean.com/v2/tags/staging");
    (reflexivity || discriminate).
Defined.

Lemma NewRequest_body_run :
  (exists req : http.Request.t,
      (forall body : option string,
          NewRequest (NewClient (server 200 ∅ "{}")) http.Background
                     http.MethodGet "v2/tags" body = Returns (Some req, None))
      /\ (forall (marshal : string -> result string) (body : option string),
             @NewRequest (withMarshal lib marshal) (NewClient (server 200 ∅ "{}"))
                         http.Background http.MethodGet "v2/tags" body
             = Returns (Some req, None))
      /\ http.Request.Body req = http.nilBody
      /\ http.Request.ContentLength req = 0
      /\ http.Header.Get (http.Request.Header req) "Content-Type" = "")
  /\ exists req : http.Request.t,
       NewRequest (NewClient (server 200 ∅ "{}")) http.Background
                  http.MethodPost "v2/tags" (Some "staging")
       = Returns (Some req, None)
       /\ http.Request.Body req
          = http.bufBody (quote +:+ "staging" +:+ quote
                          +:+ String (ascii_of_N 10) EmptyString)
       /\ http.Header.Get (http.Request.Header req) "Content-Type" = mediaType.
Proof.
  pose proof (NewRequest_body (NewClient (server 200 ∅ "{}")) http.Background
                "v2/tags" defaultBaseURL
                "https://api.digitalocean.com/v2/tags"
                "https://api.digitalocean.com/v2/tags"
                eq_refl eq_refl eq_refl) as [Hget Hpost].
  split.
  - exact (Hget http.MethodGet (or_introl eq_refl)).
  - exact (Hpost "staging" (quote +:+ "staging" +:+ quote) eq_refl).
Defined.

Lemma TagsServiceOp_stubs_run :
  let s := mkTagsServiceOp (NewClient (server 200 ∅ "{}")) in
  TagsServiceOp_Get s halfPast http.Background "staging"
    = Returns (s, (None, None, None))
  /\ exists s' tags resp err,
       TagsServiceOp_List addOptions decodeTagsRoot s halfPast http.Background None
         = Returns (s', (tags, Some resp, err))
       /\ http.Client.sent (Client.client (opClient s'))
          = [http.Request.WithContext getTags http.Background].
Proof.
  intros s.
  pose proof (TagsServiceOp_stubs addOptions decodeTagsRoot s halfPast
                http.Background "staging") as [Hget [_ [_ Hlist]]].
  split; [exact Hget|].
  exact (Hlist None tagsBasePath getTags eq_refl eq_refl eq_refl).
Defined.

(** *** Concrete runs of the further properties *)

Lemma NewRequest_headers_run :
  NewRequest (NewClient (server 200 ∅ "{}")) http.Background http.MethodPost
             "v2/tags" (Some "staging")
  = Returns (Some (http.Request.setHeader
                     (http.Request.setHeader
                        (http.Request.setHeader
                           (http.Request.mk http.Background "POST"
                              "https://api.digitalocean.com/v2/tags"
                              http.Header.make
                              (http.bufBody (quote +:+ "staging" +:+ quote
                                             +:+ String (ascii_of_N 10) EmptyString))
                              10)
                           "Content-Type" mediaType)
                        "Accept" mediaType)
                     "User-Agent" userAgent), None)
  /\ forall req,
       NewRequest (NewClient (server 200 ∅ "{}")) http.Background http.MethodPost
                  "v2/tags" (Some "staging") = Returns (Some req, None) ->
       http.Header.Get (http.Request.Header req) "Accept" = mediaType
       /\ http.Header.Get (http.Request.Header req) "User-Agent" = userAgent.
Proof.
  split; [reflexivity|]. intros req Hreq.
  exact (NewRequest_headers (NewClient (server 200 ∅ "{}")) http.Background
           http.MethodPost "v2/tags" (Some "staging") req None Hreq).
Defined.

Lemma NewRequest_request_or_error_run :
  (Some getTags = None /\ @None error <> None)
  \/ (Some getTags <> None /\ @None error = None).
Proof.
  exact (NewRequest_request_or_error (NewClient (server 200 ∅ "{}"))
           http.Background http.MethodGet "v2/tags" None
           (Some getTags) None eq_refl).
Defined.

Lemma NewRequest_panics_iff_run :
  (exists msg,
      NewRequest (NewClient (server 200 ∅ "{}")) http.Background "PUT"
                 "v2/tags/staging" (Some "production") = Panics msg)
  <-> ((exists u, URL_Parse defaultBaseURL "v2/tags/staging" = Ok u)
       /\ "PUT" <> http.MethodGet /\ "PUT" <> http.MethodHead
       /\ "PUT" <> http.MethodOptions /\ "PUT" <> http.MethodPost).
Proof.
  exact (NewRequest_panics_iff (NewClient (server 200 ∅ "{}")) http.Background
           "PUT" "v2/tags/staging" (Some "production") defaultBaseURL eq_refl).
Defined.

Lemma NewRequest_errors_run :
  @NewRequest strict (@NewClient strict (server 200 ∅ "{}")) http.Background
              http.MethodDelete "v2/tags/not a tag" None
  = Returns (None, Some (AnError "invalid character in URL"))
  /\ @NewRequest strict (@NewClient strict (server 200 ∅ "{}")) http.Background
                 http.MethodPost "v2/tags" (Some "")
     = Returns (None, Some (AnError "unsupported value"))
  /\ @NewRequest strict (@NewClient strict (server 200 ∅ "{}")) http.Background
                 http.MethodGet "v2/tags/100%" None
     = Returns (None, Some (AnError "invalid URL escape")).
Proof.
  pose proof (@NewRequest_errors strict (@NewClient strict (server 200 ∅ "{}"))
                http.Background) as Herrors.
  split; [|split].
  - exact (proj1 (Herrors "v2/tags/not a tag" defaultBaseURL eq_refl)
             "invalid character in URL" http.MethodDelete None eq_refl).
  - exact (proj1 (proj2 (Herrors "v2/tags" defaultBaseURL eq_refl))
             "https://api.digitalocean.com/v2/tags" "unsupported value" ""
             eq_refl eq_refl).
  - exact (proj2 (proj2 (Herrors "v2/tags/100%" defaultBaseURL eq_refl))
             "https://api.digitalocean.com/v2/tags/100%" "invalid URL escape"
             http.MethodGet None eq_refl eq_refl (or_introl eq_refl)).
Defined.

Lemma NewRequest_post_nil_body_run :
  exists req : http.Request.t,
    NewRequest (NewClient (server 200 ∅ "{}")) http.Background http.MethodPost
               "v2/tags" None = Returns (Some req, None)
    /\ http.Request.Body req = http.NoBody
    /\ http.Request.ContentLength req = 0
    /\ http.Header.Get (http.Request.Header req) "Content-Type" = mediaType
    /\ http.Request.URL req = "https://api.digitalocean.com/v2/tags".
Proof.
  exact (NewRequest_post_nil_body (NewClient (server 200 ∅ "{}"))
           http.Background "v2/tags" defaultBaseURL
           "https://api.digitalocean.com/v2/tags"
           "https://api.digitalocean.com/v2/tags" eq_refl eq_refl eq_refl).
Defined.

Lemma NewRequest_request_line_run :
  http.Request.Method getTags = http.MethodGet
  /\ http.Request.ctx getTags = http.Background
  /\ http.Request.ContentLength getTags = 0.
Proof.
  exact (NewRequest_request_line (NewClient (server 200 ∅ "{}"))
           (http.WithValue http.Background "trace") http.MethodGet "v2/tags"
           (Some "ignored") getTags None eq_refl).
Defined.

Lemma newResponse_unparsable_run :
  let overflow :=
    http.Response.mk "200 OK" 200
      (http.Header.Set_
         (http.Header.Set_ http.Header.make headerRateRemaining "soon")
         headerRateLimit "99999999999999999999")
      (ioutil.NopCloser "{}") None in
  Rate.Remaining (Response.Rate (newResponse overflow)) = 0
  /\ (Rate.Limit (Response.Rate (newResponse overflow)) = 2 ^ 63 - 1
      \/ Rate.Limit (Response.Rate (newResponse overflow)) = - 2 ^ 63).
Proof.
  intros overflow.
  pose proof (newResponse_unparsable overflow) as [Hsyntax [_ [_ Hrange]]].
  split; [exact (Hsyntax eq_refl)|exact (Hrange eq_refl)].
Defined.

Lemma Do_without_reset_opens_guard_run :
  let c' := (Do decodeTagsRoot fiveLeft halfPast http.Background getTags root).1.1 in
  Rate.Reset (Client.Rate c') = mkTimestamp time.zero
  /\ forall (later : time.Clock) (next : http.Request.t),
       checkRateLimitBeforeDo c' later next = None.
Proof.
  exact (Do_without_reset_opens_guard decodeTagsRoot fiveLeft halfPast
           http.Background getTags root eq_refl eq_refl).
Defined.

Lemma Do_then_held_back_run :
  let c' := (Do decodeTagsRoot beforeQuota halfPast http.Background
                getTags root).1.1 in
  exists err : RateLimitError.t,
    Do decodeTagsRoot c' threeQuarters http.Background getTags root =
      (c', root, (Response.mk (RateLimitError.Response err) (Client.Rate c')
                              None None,
                  Some (IsRateLimitError err)))
    /\ Rate.Remaining (Client.Rate c') = 0
    /\ Rate.Reset (Client.Rate c') = mkTimestamp (time.Unix 3600 0)
    /\ http.Response.StatusCode (RateLimitError.Response err) = 403.
Proof.
  refine (Do_then_held_back decodeTagsRoot beforeQuota halfPast threeQuarters
            http.Background http.Background getTags getTags root root 3600
            eq_refl eq_refl eq_refl _ eq_refl).
  discriminate.
Defined.

Lemma Do_sends_once_or_not_run :
  http.Client.sent
    (Client.client (Do decodeTagsRoot throttled halfPast http.Background
                       getTags root).1.1) = []
  /\ http.Client.sent
       (Client.client (Do decodeTagsRoot throttled twoHours http.Background
                          getTags root).1.1)
     = [http.Request.WithContext getTags http.Background].
Proof.
  split.
  - apply (Do_sends_once_or_not decodeTagsRoot throttled halfPast
             http.Background getTags root).
    repeat split.
  - apply (Do_sends_once_or_not decodeTagsRoot throttled twoHours
             http.Background getTags root).
    intros [_ [_ Hlt]]. vm_compute in Hlt. discriminate Hlt.
Defined.

Lemma Do_error_leaves_target_run :
  (Do decodeTagsRoot failing halfPast http.Background getTags root).1.2 = root
  /\ (Do decodeTagsRoot failing halfPast http.Background getTags root).2.2 <> None.
Proof.
  apply (Do_error_leaves_target decodeTagsRoot failing halfPast
           http.Background getTags root).
  right. cbn. lia.
Defined.

Lemma CheckResponse_body_reread_run :
  (ioutil.ReadAll (http.Response.Body (CheckResponse cutOff).1)).2
  = ("upstr", None).
Proof.
  apply (CheckResponse_body_reread cutOff). cbn. lia.
Defined.

Lemma drainBody_empties_run :
  ioutil.pending (drainBody (-1) (ioutil.NopCloser "{}")) = ""
  /\ ioutil.failure (drainBody (-1) (ioutil.NopCloser "{}")) = None.
Proof.
  apply (drainBody_empties (-1) (ioutil.NopCloser "{}")).
  - left. reflexivity.
  - cbn. lia.
Defined.


Lemma List_without_exchange_run :
  TagsServiceOp_List addOptions decodeTagsRoot (mkTagsServiceOp throttled)
                     halfPast http.Background None
  = Returns
      (mkTagsServiceOp throttled,
       ([],
        Some (Response.mk
                (http.Response.mk "Forbidden" 403 http.Header.make
                                  (ioutil.NopCloser "") (Some getTags))
                (Rate.mk 100 0 resetAt) None None),
        Some (IsRateLimitError
                (RateLimitError.mk (Rate.mk 100 0 resetAt)
                   (http.Response.mk "Forbidden" 403 http.Header.make
                                     (ioutil.NopCloser "") (Some getTags))
                   "API rate limit of 100 still exceeded until 62135600400000000000, not making remote request.")))).
Proof.
  exact (proj2 (proj2 (List_without_exchange addOptions decodeTagsRoot
                         (mkTagsServiceOp throttled) halfPast http.Background
                         None))
           tagsBasePath getTags _ eq_refl eq_refl eq_refl).
Defined.

Lemma List_error_response_run :
  exists s' resp e,
    TagsServiceOp_List addOptions decodeTagsRoot (mkTagsServiceOp beforeQuota)
                       halfPast http.Background None
    = Returns (s', ([], Some resp, Some e))
    /\ (classify (Some e) = Generic \/ classify (Some e) = RateLimited)
    /\ Response.Rate resp = Rate.mk 0 0 resetAt
    /\ Client.Rate (opClient s') = Rate.mk 0 0 resetAt.
Proof.
  assert (Hout : ~ (200 <= 403 <= 299)) by lia.
  assert (Hreq : NewRequest (opClient (mkTagsServiceOp beforeQuota))
                   http.Background http.MethodGet tagsBasePath None
                 = Returns (Some getTags, None)) by reflexivity.
  assert (Hguard : checkRateLimitBeforeDo (opClient (mkTagsServiceOp beforeQuota))
                     halfPast getTags = None) by reflexivity.
  destruct (List_error_response addOptions decodeTagsRoot
              (mkTagsServiceOp beforeQuota) halfPast http.Background None
              tagsBasePath getTags eq_refl Hreq Hguard Hout)
    as [s' [resp [e [Hlist [Hclass [_ [Hrate [Hcached _]]]]]]]].
  exists s', resp, e. repeat split; assumption.
Defined.
